(** * E-commerce backend: authentication, cart and payment handlers

    A shallow embedding of the request handlers of the repository
    (Express routers, Next.js route handlers, the authorization middleware
    and the Mongoose schemas) together with the properties stated about
    them.

    Conventions of the embedding.
    - JavaScript strings are [string]s: sequences of code units below 256.
    - An [ObjectId] is the 96-bit number it denotes.
    - Time is the integer number of seconds since the epoch, which is the
      unit jsonwebtoken uses for [iat] and [exp].
    - The document store always answers; driver failures are not modelled.
    - The two cryptographic cores (HMAC-SHA256 under jsonwebtoken and the
      eksblowfish digest under bcryptjs) and the payment processor are
      section variables: the theorems hold for whatever functions they
      are, and the one on stored passwords says what it asks of the
      digest.
    - The fields of a registration or login body are strings or absent.
    - The payload of a token carries ObjectIds; a token whose [id] is not
      one is outside the embedding. *)

From Stdlib Require Import String Ascii List ZArith NArith QArith Qround Bool Lia.
Import ListNotations.
Set Warnings "-register-all".
Open Scope list_scope.
Open Scope string_scope.

(** ** JavaScript strings *)

Module JS.

(** [s.split(sep)] for a one-character separator. *)
Fixpoint split (sep : ascii) (s : string) : list string :=
  match s with
  | EmptyString => [EmptyString]
  | String c r =>
      if Ascii.eqb c sep then EmptyString :: split sep r
      else match split sep r with
           | h :: t => String c h :: t
           | [] => [String c EmptyString]
           end
  end.

(** Does the character occur in the string? *)
Fixpoint mem (c : ascii) (s : string) : bool :=
  match s with
  | EmptyString => false
  | String d r => Ascii.eqb d c || mem c r
  end.

(** [!s] on a value that is a string or [undefined]. *)
Definition falsy (v : option string) : bool :=
  match v with
  | None => true
  | Some s => String.eqb s ""
  end.

(** The class [\s] restricted to code units below 256. *)
Definition isSpace (c : ascii) : bool :=
  let n := nat_of_ascii c in
  ((9 <=? n) && (n <=? 13) || (n =? 32) || (n =? 160))%nat.

Definition isDigit (c : ascii) : bool :=
  let n := nat_of_ascii c in ((48 <=? n) && (n <=? 57))%nat.

Fixpoint forallb (p : ascii -> bool) (s : string) : bool :=
  match s with
  | EmptyString => true
  | String c r => p c && forallb p r
  end.

Fixpoint dropWhile (p : ascii -> bool) (s : string) : string :=
  match s with
  | EmptyString => EmptyString
  | String c r => if p c then dropWhile p r else s
  end.

Fixpoint rev_onto (s acc : string) : string :=
  match s with
  | EmptyString => acc
  | String c r => rev_onto r (String c acc)
  end.

Definition rev (s : string) : string := rev_onto s "".

(** [s.trim()] *)
Definition trim (s : string) : string :=
  rev (dropWhile isSpace (rev (dropWhile isSpace s))).

Definition lowerChar (c : ascii) : ascii :=
  let n := nat_of_ascii c in
  if ((65 <=? n) && (n <=? 90) ||
      (192 <=? n) && (n <=? 222) && negb (n =? 215))%nat
  then ascii_of_nat (n + 32) else c.

(** [s.toLowerCase()] *)
Fixpoint toLowerCase (s : string) : string :=
  match s with
  | EmptyString => EmptyString
  | String c r => String (lowerChar c) (toLowerCase r)
  end.

End JS.

(** ** Self-delimiting serialisation

    jsonwebtoken serialises the claims of a token as base64url JSON.  The
    embedding keeps what matters of it, a printer with a parser that
    recovers the value and the rest of the input. *)

Module Wire.

Definition decoder (A : Type) : Type := string -> option (A * string).

Definition codec_ok {A : Type} (enc : A -> string) (dec : decoder A) : Prop :=
  forall a rest, dec (enc a ++ rest) = Some (a, rest).

Fixpoint enc_pos (p : positive) : string :=
  match p with
  | xH => "."
  | xO q => String "0" (enc_pos q)
  | xI q => String "1" (enc_pos q)
  end.

Fixpoint dec_pos (s : string) : option (positive * string) :=
  match s with
  | EmptyString => None
  | String c r =>
      if Ascii.eqb c "." then Some (xH, r)
      else if Ascii.eqb c "0" then
        match dec_pos r with Some (q, t) => Some (xO q, t) | None => None end
      else if Ascii.eqb c "1" then
        match dec_pos r with Some (q, t) => Some (xI q, t) | None => None end
      else None
  end.

Definition enc_N (n : N) : string := enc_pos (N.succ_pos n).

Definition dec_N (s : string) : option (N * string) :=
  match dec_pos s with
  | Some (p, t) => Some (Pos.pred_N p, t)
  | None => None
  end.

Definition enc_Z (z : Z) : string :=
  match z with
  | Z0 => "z"
  | Zpos p => String "+" (enc_pos p)
  | Zneg p => String "-" (enc_pos p)
  end.

Definition dec_Z (s : string) : option (Z * string) :=
  match s with
  | EmptyString => None
  | String c r =>
      if Ascii.eqb c "z" then Some (0%Z, r)
      else if Ascii.eqb c "+" then
        match dec_pos r with Some (p, t) => Some (Zpos p, t) | None => None end
      else if Ascii.eqb c "-" then
        match dec_pos r with Some (p, t) => Some (Zneg p, t) | None => None end
      else None
  end.

(** The first [n] characters and the rest, if there are that many. *)
Fixpoint take (n : nat) (s : string) : option (string * string) :=
  match n with
  | O => Some (EmptyString, s)
  | S k =>
      match s with
      | EmptyString => None
      | String c r =>
          match take k r with
          | Some (h, t) => Some (String c h, t)
          | None => None
          end
      end
  end.

Definition enc_str (s : string) : string :=
  enc_N (N.of_nat (String.length s)) ++ s.

Definition dec_str (s : string) : option (string * string) :=
  match dec_N s with
  | Some (n, t) => take (N.to_nat n) t
  | None => None
  end.

Definition enc_pair {A B : Type} (ea : A -> string) (eb : B -> string)
    (x : A * B) : string :=
  ea (fst x) ++ eb (snd x).

Definition dec_pair {A B : Type} (da : decoder A) (db : decoder B)
    : decoder (A * B) :=
  fun s =>
    match da s with
    | Some (a, t) =>
        match db t with
        | Some (b, u) => Some ((a, b), u)
        | None => None
        end
    | None => None
    end.

Fixpoint enc_items {A : Type} (ea : A -> string) (l : list A) : string :=
  match l with
  | [] => EmptyString
  | a :: r => ea a ++ enc_items ea r
  end.

Fixpoint dec_items {A : Type} (da : decoder A) (n : nat) (s : string)
    : option (list A * string) :=
  match n with
  | O => Some ([], s)
  | S k =>
      match da s with
      | Some (a, t) =>
          match dec_items da k t with
          | Some (l, u) => Some (a :: l, u)
          | None => None
          end
      | None => None
      end
  end.

Definition enc_list {A : Type} (ea : A -> string) (l : list A) : string :=
  enc_N (N.of_nat (List.length l)) ++ enc_items ea l.

Definition dec_list {A : Type} (da : decoder A) : decoder (list A) :=
  fun s =>
    match dec_N s with
    | Some (n, t) => dec_items da (N.to_nat n) t
    | None => None
    end.

End Wire.

(** ** Values, responses and documents *)

Definition ObjectId : Type := N.

(** The numbers a JSON text can denote: the finite ones, and the two
    infinities that [JSON.parse] yields on overflow. *)
Inductive number : Type :=
| Fin (q : Q)
| PosInf
| NegInf.

Inductive json : Type :=
| JNull
| JBool (b : bool)
| JNum (n : number)
| JStr (s : string)
| JOid (i : ObjectId)
| JArr (items : list json)
| JObj (fields : list (string * json)).

(** What [res.status(c).json(b)] or [new Response(JSON.stringify(b), {status: c})]
    sends. *)
Record response : Type := Response { status : Z; body : json }.

(** [o.k] on a parsed JSON value; [None] stands for [undefined]. *)
Fixpoint assoc {V : Type} (k : string) (l : list (string * V)) : option V :=
  match l with
  | [] => None
  | (k', v) :: r => if String.eqb k' k then Some v else assoc k r
  end.

Definition number_is_zero (n : number) : bool :=
  match n with
  | Fin q => Qeq_bool q 0
  | _ => false
  end.

(** [!v] on a JSON value or [undefined]. *)
Definition json_falsy (v : option json) : bool :=
  match v with
  | None => true
  | Some JNull => true
  | Some (JBool b) => negb b
  | Some (JNum n) => number_is_zero n
  | Some (JStr s) => String.eqb s ""
  | Some _ => false
  end.

(** [n >= 1], the test of a [min: 1] validator. *)
Definition at_least_one (n : number) : bool :=
  match n with
  | Fin q => Qle_bool 1 q
  | PosInf => true
  | NegInf => false
  end.

Definition is_integer (n : number) : bool :=
  match n with
  | Fin q => Qeq_bool (inject_Z (Qfloor q)) q
  | _ => false
  end.

(** models/Product.js *)
Module Product.
Record doc : Type := Doc {
  _id : ObjectId;
  name : string;
  description : string;
  price : number;
  image : string;
  stock : number
}.

Definition toJSON (p : doc) : json :=
  JObj [("_id", JOid (_id p)); ("name", JStr (name p));
        ("description", JStr (description p)); ("price", JNum (price p));
        ("image", JStr (image p)); ("stock", JNum (stock p))].
End Product.

(** The [cart] array of models/User.js.  A field that the schema marks
    [required] may still be absent from a candidate document, hence the
    options. *)
Module LineItem.
Record t : Type := Make {
  productId : option ObjectId;
  quantity : option number
}.
End LineItem.

(** A document of the [users] collection.  Both user schemas write to it:
    the one of models/User.js ([name], [email], [password], [cart]) and the
    one of the server file, which adds [phoneNumber], [city] and
    [createdAt]. *)
Module User.
Record doc : Type := Doc {
  _id : ObjectId;
  name : string;
  email : string;
  password : string;
  phoneNumber : option string;
  city : option string;
  createdAt : option Z;
  cart : list LineItem.t
}.

Definition with_cart (c : list LineItem.t) (u : doc) : doc :=
  Doc (_id u) (name u) (email u) (password u) (phoneNumber u) (city u)
      (createdAt u) c.

Definition with_password (p : string) (u : doc) : doc :=
  Doc (_id u) (name u) (email u) p (phoneNumber u) (city u)
      (createdAt u) (cart u).
End User.

(** models/Cart.js, the standalone cart document. *)
Module Cart.
Record item : Type := Item {
  productId : option ObjectId;
  quantity : option number;
  price : option number
}.

Record doc : Type := Doc {
  _id : ObjectId;
  userId : option ObjectId;
  items : list item;
  totalAmount : option number
}.
End Cart.

(** ** The world a handler runs in *)

Record World : Type := mkWorld {
  users : list User.doc;          (* collection [users], insertion order *)
  carts : list Cart.doc;          (* collection [carts] *)
  products : list Product.doc;    (* collection [products] *)
  JWT_SECRET : option string;     (* process.env.JWT_SECRET *)
  now : Z;                        (* Math.floor(Date.now() / 1000) *)
  next_oid : ObjectId;            (* the next generated [_id] *)
  rng : N                         (* state of the random source *)
}.

Definition set_users (us : list User.doc) (w : World) : World :=
  mkWorld us (carts w) (products w) (JWT_SECRET w) (now w) (next_oid w) (rng w).

Definition set_carts (cs : list Cart.doc) (w : World) : World :=
  mkWorld (users w) cs (products w) (JWT_SECRET w) (now w) (next_oid w) (rng w).

Definition set_next_oid (i : ObjectId) (w : World) : World :=
  mkWorld (users w) (carts w) (products w) (JWT_SECRET w) (now w) i (rng w).

Definition set_rng (r : N) (w : World) : World :=
  mkWorld (users w) (carts w) (products w) (JWT_SECRET w) (now w) (next_oid w) r.

(** ** Computations that read and write the world and may throw

    An [await]ed call either yields a value or throws; what was written to
    the store before the throw stays written. *)

Inductive result (A : Type) : Type :=
| Ok (a : A)
| Throw (message : string).
Arguments Ok {A} a.
Arguments Throw {A} message.

Definition M (A : Type) : Type := World -> result A * World.

Definition ret {A : Type} (a : A) : M A := fun w => (Ok a, w).

Definition throw {A : Type} (message : string) : M A :=
  fun w => (Throw message, w).

Definition bind {A B : Type} (m : M A) (k : A -> M B) : M B :=
  fun w =>
    match m w with
    | (Ok a, w') => k a w'
    | (Throw e, w') => (Throw e, w')
    end.

Definition get {A : Type} (f : World -> A) : M A := fun w => (Ok (f w), w).

Definition lift {A : Type} (r : result A) : M A := fun w => (r, w).

Declare Scope js_scope.
Delimit Scope js_scope with js.
Notation "x <- m ;; k" := (bind m (fun x => k))
  (at level 61, m at next level, right associativity) : js_scope.
Notation "m ;;; k" := (bind m (fun _ => k))
  (at level 61, right associativity) : js_scope.

(** A handler whose body is [try { ... } catch (error) { send }]. *)
Definition try_respond (body : M response) (on_error : string -> response)
    (w : World) : response * World :=
  match body w with
  | (Ok r, w') => (r, w')
  | (Throw e, w') => (on_error e, w')
  end.

(** ** Queries *)

(** [Model.findById(id)]; [findById(undefined)] finds nothing. *)
Definition findById (us : list User.doc) (id : option ObjectId)
    : option User.doc :=
  match id with
  | None => None
  | Some i => find (fun u => N.eqb (User._id u) i) us
  end.

(** [User.findOne({ email })]: the first document whose [email] is the
    given string; an [undefined] email matches no document. *)
Definition findOne_email (us : list User.doc) (email : option string)
    : option User.doc :=
  match email with
  | None => None
  | Some e => find (fun u => String.eqb (User.email u) e) us
  end.

(** What [doc.save()] writes once validation has passed.  The collection
    has a unique index on [_id] and, from the schemas, one on [email].  A
    new document is inserted at the end; a loaded one replaces the stored
    document with its [_id]. *)
Definition email_taken (d : User.doc) (us : list User.doc) : bool :=
  existsb (fun u => String.eqb (User.email u) (User.email d)
                    && negb (N.eqb (User._id u) (User._id d))) us.

Definition id_taken (i : ObjectId) (us : list User.doc) : bool :=
  existsb (fun u => N.eqb (User._id u) i) us.

Definition replace_user (d : User.doc) (us : list User.doc) : list User.doc :=
  map (fun u => if N.eqb (User._id u) (User._id d) then d else u) us.

Definition store_user (isNew : bool) (d : User.doc) : M unit :=
  fun w =>
    if email_taken d (users w)
    then (Throw "E11000 duplicate key error", w)
    else if isNew then
      if id_taken (User._id d) (users w)
      then (Throw "E11000 duplicate key error", w)
      else (Ok tt, set_users (users w ++ [d])%list w)
    else
      if id_taken (User._id d) (users w)
      then (Ok tt, set_users (replace_user d (users w)) w)
      else (Throw "No document found for query", w).

Definition cart_id_taken (i : ObjectId) (cs : list Cart.doc) : bool :=
  existsb (fun c => N.eqb (Cart._id c) i) cs.

Definition replace_cart (d : Cart.doc) (cs : list Cart.doc) : list Cart.doc :=
  map (fun c => if N.eqb (Cart._id c) (Cart._id d) then d else c) cs.

Definition store_cart (isNew : bool) (d : Cart.doc) : M unit :=
  fun w =>
    if isNew then
      if cart_id_taken (Cart._id d) (carts w)
      then (Throw "E11000 duplicate key error", w)
      else (Ok tt, set_carts (carts w ++ [d])%list w)
    else
      if cart_id_taken (Cart._id d) (carts w)
      then (Ok tt, set_carts (replace_cart d (carts w)) w)
      else (Throw "No document found for query", w).

(** [new Model(...)] draws a fresh [_id]. *)
Definition new_oid : M ObjectId :=
  fun w => (Ok (next_oid w), set_next_oid (N.succ (next_oid w)) w).

(** ** Claims of a token *)

Module Jwt.
Record claims : Type := Claims {
  payload : list (string * ObjectId);   (* the object given to [jwt.sign] *)
  iat : Z;
  exp : Z
}.

Definition enc_payload : list (string * ObjectId) -> string :=
  Wire.enc_list (Wire.enc_pair Wire.enc_str Wire.enc_N).

Definition dec_payload : Wire.decoder (list (string * ObjectId)) :=
  Wire.dec_list (Wire.dec_pair Wire.dec_str Wire.dec_N).

Definition encode (c : claims) : string :=
  enc_payload (payload c) ++ Wire.enc_Z (iat c) ++ Wire.enc_Z (exp c).

Definition decode : Wire.decoder claims :=
  fun s =>
    match dec_payload s with
    | Some (p, t) =>
        match Wire.dec_Z t with
        | Some (i, u) =>
            match Wire.dec_Z u with
            | Some (e, v) => Some (Claims p i e, v)
            | None => None
            end
        | None => None
        end
    | None => None
    end.

(** [expiresIn] in seconds *)
Definition one_hour : Z := 3600.          (* '1h' *)
Definition one_day : Z := 86400.          (* '1d', '24h' *)
End Jwt.

(** ** Request bodies *)

(** The body of a registration or login request after [express.json()] or
    [req.json()]: each field is a string or absent. *)
Module Body.
Record t : Type := Make {
  name : option string;
  email : option string;
  password : option string;
  phoneNumber : option string;
  city : option string
}.
End Body.

(** The value of a string field that has passed a falsy test. *)
Definition str (v : option string) : string :=
  match v with
  | Some s => s
  | None => ""
  end.

(** What the payment handler hands to [stripe.charges.create]. *)
Module Charge.
Record request : Type := Make {
  amount : json;
  currency : string;
  source : option json;
  description : string
}.
End Charge.

(** ** Regular expressions of the server file *)

Definition not_space_or_at (c : ascii) : bool :=
  negb (JS.isSpace c) && negb (Ascii.eqb c "@").

(** Some ["."] of the string is followed by at least one character. *)
Fixpoint dot_not_last (s : string) : bool :=
  match s with
  | String c (String _ _ as t) => Ascii.eqb c "." || dot_not_last t
  | _ => false
  end.

(** [/^[^\s@]+@[^\s@]+\.[^\s@]+$/.test(s)]: one ["@"], a non-empty local
    part, and a domain with a ["."] that is neither its first nor its last
    character. *)
Definition emailRegex (s : string) : bool :=
  match JS.split "@" s with
  | [a; d] =>
      negb (String.eqb a "") && JS.forallb not_space_or_at a &&
      JS.forallb not_space_or_at d &&
      match d with
      | String _ r => dot_not_last r
      | EmptyString => false
      end
  | _ => false
  end.

(** [/^[0-9]{10}$/.test(s)] *)
Definition phoneRegex (s : string) : bool :=
  (String.length s =? 10)%nat && JS.forallb JS.isDigit s.

(** After some character, an ["@"], one more character, and a ["."] that is
    not last. *)
Fixpoint at_then_dot (s : string) : bool :=
  match s with
  | String c t =>
      (Ascii.eqb c "@" &&
       match t with
       | String _ u => dot_not_last u
       | EmptyString => false
       end) || at_then_dot t
  | EmptyString => false
  end.

(** [/^\S+@\S+\.\S+$/.test(s)], the validator of the schema's [email]. *)
Definition schemaEmailRegex (s : string) : bool :=
  JS.forallb (fun c => negb (JS.isSpace c)) s &&
  match s with
  | String _ r => at_then_dot r
  | EmptyString => false
  end.

(** ** Schema validation *)

(** models/User.js: [name], [email] and [password] are required; a line
    item needs its [productId] and a [quantity] with [min: 1]. *)
Definition UserSchema_item_valid (it : LineItem.t) : bool :=
  match LineItem.productId it, LineItem.quantity it with
  | Some _, Some q => at_least_one q
  | _, _ => false
  end.

Definition UserSchema_validate (d : User.doc) : bool :=
  negb (String.eqb (User.name d) "") &&
  negb (String.eqb (User.email d) "") &&
  negb (String.eqb (User.password d) "") &&
  List.forallb UserSchema_item_valid (User.cart d).

(** models/Cart.js: every field is required and nothing else is asked. *)
Definition cartSchema_item_valid (it : Cart.item) : bool :=
  match Cart.productId it, Cart.quantity it, Cart.price it with
  | Some _, Some _, Some _ => true
  | _, _, _ => false
  end.

Definition cartSchema_validate (d : Cart.doc) : bool :=
  match Cart.userId d, Cart.totalAmount d with
  | Some _, Some _ => List.forallb cartSchema_item_valid (Cart.items d)
  | _, _ => false
  end.

(** The [userSchema] of the server file, on a document whose setters
    ([trim], [lowercase]) have run. *)
Definition userSchema_validate (d : User.doc) : bool :=
  (2 <=? String.length (User.name d))%nat &&
  match User.phoneNumber d with
  | Some p => phoneRegex p
  | None => false
  end &&
  match User.city d with
  | Some c => (2 <=? String.length c)%nat
  | None => false
  end &&
  schemaEmailRegex (User.email d) &&
  (6 <=? String.length (User.password d))%nat.

(** [new User({ name, phoneNumber, city, email, password })] under the
    [userSchema] of the server file: the setters run and [createdAt] takes
    its default. *)
Definition userSchema_new (id : ObjectId) (name phoneNumber city email
    password : string) (created : Z) : User.doc :=
  User.Doc id (JS.trim name) (JS.toLowerCase (JS.trim email)) password
           (Some (JS.trim phoneNumber)) (Some (JS.trim city))
           (Some created) [].

(** [User.findOne({ email })] under the [userSchema] of the server file:
    casting the filter runs the setters of the path. *)
Definition userSchema_findOne_email (us : list User.doc)
    (email : option string) : option User.doc :=
  findOne_email us (option_map (fun e => JS.toLowerCase (JS.trim e)) email).

(** [password] has [select: false]: a document returned by a query carries
    no password. *)
Definition userSchema_selected_password (u : User.doc) : option string :=
  None.

(** [body.k] on a parsed JSON value that is not [null]. *)
Definition prop (k : string) (v : json) : option json :=
  match v with
  | JObj fields => assoc k fields
  | _ => None
  end.

Definition message (s : string) : json := JObj [("message", JStr s)].

(** ** Stand-ins for the primitives, for running the handlers *)

Module Demo.

(** A signature that names the key and the length of the message. *)
Definition hs256 (key message : string) : string :=
  Wire.enc_N (N.of_nat (String.length message)) ++ key.

Fixpoint last (s : string) : option ascii :=
  match s with
  | EmptyString => None
  | String c EmptyString => Some c
  | String _ r => last r
  end.

(** The first [n] characters of the string, filled up with ["."]. *)
Fixpoint pad (n : nat) (s : string) : string :=
  match n with
  | O => EmptyString
  | S k =>
      match s with
      | String c r => String c (pad k r)
      | EmptyString => String "." (pad k EmptyString)
      end
  end.

(** A digest of 31 characters: thirty taken from the password, and one
    that differs from the last character of the password. *)
Definition eksblowfish (salt s : string) : string :=
  pad 30 s ++
  String (match last s with
          | Some "A"%char => "B"%char
          | _ => "A"%char
          end) EmptyString.

Definition stripe_charges_create (c : Charge.request) : result string :=
  Ok "ch_1".

Definition world : World :=
  mkWorld [] [] [] (Some "s3cret") 1000%Z 1%N 7%N.

Definition ann : Body.t :=
  Body.Make (Some "Ann") (Some "a@x.com") (Some "secret1")
            (Some "9876543210") (Some "Pune").

(** The same server with no [JWT_SECRET] in its environment. *)
Definition world_without_secret : World :=
  mkWorld [] [] [] None 1000%Z 1%N 7%N.

Definition ann_wrong_password : Body.t :=
  Body.Make None (Some "a@x.com") (Some "wrong") None None.

Definition nobody : Body.t :=
  Body.Make None (Some "nobody@x.com") (Some "wrong") None None.

(** A store with two users who have something in their carts. *)
Definition rice : Product.doc :=
  Product.Doc 10%N "Rice" "Basmati, 1 kg" (Fin 120) "rice.png" (Fin 40).

Definition alice : User.doc :=
  User.Doc 1%N "Alice" "alice@x.com" "$2a$10$alice" None None None
           [LineItem.Make (Some 10%N) (Some (Fin 2))].

Definition bob : User.doc :=
  User.Doc 2%N "Bob" "bob@x.com" "$2a$10$bob" None None None
           [LineItem.Make (Some 10%N) (Some (Fin 5))].

Definition shop : World :=
  mkWorld [alice; bob] [] [rice] (Some "s3cret") 2000%Z 3%N 7%N.

(** A user document whose cart lists one product twice. *)
Definition doubled : User.doc :=
  User.Doc 1%N "Ann" "a@x.com" "$2a$10$ann" None None None
           [LineItem.Make (Some 10%N) (Some (Fin 1));
            LineItem.Make (Some 10%N) (Some (Fin 2))].

(** A user document whose cart holds one and a half of a product. *)
Definition halved : User.doc :=
  User.Doc 1%N "Ann" "a@x.com" "$2a$10$ann" None None None
           [LineItem.Make (Some 10%N) (Some (Fin (3 # 2)))].

(** A cart document with a line item of quantity 0. *)
Definition empty_handed : Cart.doc :=
  Cart.Doc 1%N (Some 1%N)
           [Cart.Item (Some 10%N) (Some (Fin 0)) (Some (Fin 120))]
           (Some (Fin 0)).

(** A payment request for an amount of 0. *)
Definition free_charge : json :=
  JObj [("token", JObj [("id", JStr "tok_visa")]); ("amount", JNum (Fin 0))].

(** The same request with the amount written as a string. *)
Definition free_charge_as_text : json :=
  JObj [("token", JObj [("id", JStr "tok_visa")]); ("amount", JStr "0")].



End Demo.

(** ** More sample requests *)

Module Sample.

(** Ann's registration with her address in capitals. *)
Definition ann_shouting : Body.t :=
  Body.Make (Some "Ann") (Some "A@X.COM") (Some "secret1")
            (Some "9876543210") (Some "Pune").

(** A registration whose name is one letter. *)
Definition initial_only : Body.t :=
  Body.Make (Some "A") (Some "a@x.com") (Some "secret1")
            (Some "9876543210") (Some "Pune").

(** Ann's email without a password. *)
Definition no_password : Body.t :=
  Body.Make None (Some "a@x.com") None None None.

(** A payment of 500 with the token as the frontend library gives it, and
    with the token given as its bare id. *)
Definition card_charge : json :=
  JObj [("token", JObj [("id", JStr "tok_visa")]);
        ("amount", JNum (Fin 500))].

Definition bare_token_charge : json :=
  JObj [("token", JStr "tok_visa"); ("amount", JNum (Fin 500))].

(** A processor that is down. *)
Definition stripe_down (c : Charge.request) : result string :=
  Throw "An error occurred with our connection to Stripe.".

(** A cart entry whose product is no longer in the catalogue. *)
Definition carol : User.doc :=
  User.Doc 3%N "Carol" "carol@x.com" "$2a$10$carol" None None None
           [LineItem.Make (Some 10%N) (Some (Fin 2));
            LineItem.Make (Some 99%N) (Some (Fin 1))].

Definition shop : World :=
  mkWorld [Demo.alice; Demo.bob; carol] [] [Demo.rice] (Some "s3cret")
          2000%Z 4%N 7%N.

End Sample.

(** ** The libraries and the handlers *)

Section Backend.

(** HMAC-SHA256 of a message under a key, as jsonwebtoken signs HS256. *)
Variable hs256 : string -> string -> string.

(** The eksblowfish digest of a password under a salt string; the salt
    string carries the version and the cost. *)
Variable eksblowfish : string -> string -> string.

(** [stripe.charges.create]: the id of the charge, or the error thrown. *)
Variable stripe_charges_create : Charge.request -> result string.

(** *** jsonwebtoken *)

(** [jwt.sign(payload, secretOrPrivateKey, { expiresIn })] *)
Definition jwt_sign (payload : list (string * ObjectId))
    (secretOrPrivateKey : option string) (expiresIn : Z) : M string :=
  fun w =>
    if JS.falsy secretOrPrivateKey
    then (Throw "secretOrPrivateKey must have a value", w)
    else
      let c := Jwt.Claims payload (now w) (now w + expiresIn) in
      (Ok (Jwt.encode c ++ hs256 (str secretOrPrivateKey) (Jwt.encode c)), w).

(** [jwt.verify(token, secretOrPublicKey)] at a given clock time *)
Definition jwt_verify (token : string) (secretOrPublicKey : option string)
    (clockTimestamp : Z) : result Jwt.claims :=
  match Jwt.decode token with
  | None => Throw "jwt malformed"
  | Some (c, signature) =>
      if JS.falsy secretOrPublicKey
      then Throw "secret or public key must be provided"
      else if negb (String.eqb signature
                      (hs256 (str secretOrPublicKey) (Jwt.encode c)))
      then Throw "invalid signature"
      else if (Jwt.exp c <=? clockTimestamp)%Z
      then Throw "jwt expired"
      else Ok c
  end.

(** *** bcryptjs *)

Definition base64_alphabet : string :=
  "./ABCDEFGHIJKLMNOPQRSTUVWXYZabcdefghijklmnopqrstuvwxyz0123456789".

Fixpoint random_chars (k : nat) (r : N) : string :=
  match k with
  | O => EmptyString
  | S k' =>
      String
        match String.get (N.to_nat (r mod 64)) base64_alphabet with
        | Some c => c
        | None => "."%char
        end
        (random_chars k' (r / 64))
  end.

(** [bcrypt.genSalt(10)] *)
Definition bcrypt_genSalt : M string :=
  fun w =>
    (Ok ("$2a$10$" ++ random_chars 22 (rng w)), set_rng (N.succ (rng w)) w).

(** [bcrypt.hash(s, salt)] with a salt string *)
Definition bcrypt_hash_salt (s salt : string) : string :=
  salt ++ eksblowfish salt s.

(** [bcrypt.hash(s, 10)] *)
Definition bcrypt_hash (s : string) : M string :=
  bind bcrypt_genSalt (fun salt => ret (bcrypt_hash_salt s salt)).

(** [bcrypt.compare(s, hash)]: both must be strings; a hash that is not 60
    characters long matches nothing; otherwise [s] is hashed under the salt
    the hash starts with and the two are compared. *)
Definition bcrypt_compare (s hash : option string) : result bool :=
  match s, hash with
  | Some s, Some hash =>
      if negb (String.length hash =? 60)%nat then Ok false
      else Ok (String.eqb (bcrypt_hash_salt s (substring 0 29 hash)) hash)
  | _, _ => Throw "Illegal arguments"
  end.

(** *** middleware/authMiddleware.js *)

Inductive passed : Type :=
| Next (userId : option ObjectId)     (* [req.userId] as [next()] is called *)
| Sent (r : response).

Definition authMiddleware (authorization : option string) (w : World)
    : passed :=
  let token :=
    match authorization with
    | Some h => nth_error (JS.split " " h) 1
    | None => None
    end in
  if JS.falsy token
  then Sent (Response 401 (message "No token, authorization denied"))
  else
    match jwt_verify (str token) (JWT_SECRET w) (now w) with
    | Ok decoded => Next (assoc "id" (Jwt.payload decoded))
    | Throw _ => Sent (Response 401 (message "Token is not valid"))
    end.

(** The two refusals of the middleware. *)
Definition no_token : passed :=
  Sent (Response 401 (message "No token, authorization denied")).

Definition bad_token : passed :=
  Sent (Response 401 (message "Token is not valid")).

(** *** The cart router: [router.get('/', authMiddleware, ...)] *)

Definition field (k : string) (v : option json) : list (string * json) :=
  match v with
  | Some j => [(k, j)]
  | None => []
  end.

(** [populate('cart.productId')] on one line item: the reference becomes
    the product document, or [null] when there is none.  The [_id] that
    mongoose gives each subdocument of the array is not part of
    [LineItem.t] and is left out of the JSON. *)
Definition populate (ps : list Product.doc) (it : LineItem.t) : json :=
  JObj (field "productId"
          (option_map
             (fun p =>
                match find (fun d => N.eqb (Product._id d) p) ps with
                | Some d => Product.toJSON d
                | None => JNull
                end)
             (LineItem.productId it))
        ++ field "quantity" (option_map JNum (LineItem.quantity it)))%list.

(** The handler's [catch] answers 500 when [findById] or [populate]
    throws.  [findById] throws a CastError for an identity that cannot be
    cast to an ObjectId; the identities of this embedding are ObjectIds or
    undefined, for which it does not throw, so that here the [catch] is
    never entered. *)
Definition cart_GET (authorization : option string) (w : World)
    : response * World :=
  match authMiddleware authorization w with
  | Sent r => (r, w)
  | Next userId =>
      try_respond
        (match findById (users w) userId with
         | None => ret (Response 404 (message "User not found"))
         | Some user =>
             ret (Response 200
                    (JArr (map (populate (products w)) (User.cart user))))
         end)
        (fun _ => Response 500 (message "Error fetching cart"))
        w
  end.

(** *** models/User.js and models/Cart.js: saving a document *)

Definition User_save (isNew : bool) (d : User.doc) : M unit :=
  if UserSchema_validate d then store_user isNew d
  else throw "User validation failed".

Definition Cart_save (isNew : bool) (d : Cart.doc) : M unit :=
  if cartSchema_validate d then store_cart isNew d
  else throw "Cart validation failed".

Open Scope js_scope.

(** *** app/api/register/route.js: [router.post('/register', ...)] *)

Definition register_POST (b : Body.t) : World -> response * World :=
  let name := Body.name b in
  let email := Body.email b in
  let password := Body.password b in
  if JS.falsy name || JS.falsy email || JS.falsy password
  then fun w => (Response 400 (message "All fields are required"), w)
  else
    try_respond
      (existingUser <- get (fun w => findOne_email (users w) email) ;;
       match existingUser with
       | Some _ => ret (Response 400 (message "User already exists"))
       | None =>
           hashedPassword <- bcrypt_hash (str password) ;;
           id <- new_oid ;;
           let newUser :=
             User.Doc id (str name) (str email) hashedPassword
                      None None None [] in
           User_save true newUser ;;;
           secret <- get JWT_SECRET ;;
           token <- jwt_sign [("userId", User._id newUser)] secret
                             Jwt.one_hour ;;
           ret (Response 201
                  (JObj [("success", JBool true); ("token", JStr token)]))
       end)
      (fun _ =>
         Response 500 (message "An error occurred. Please try again later.")).

(** *** app/api/login/route.js: [POST] *)

Definition login_POST (b : Body.t) : World -> response * World :=
  let email := Body.email b in
  let password := Body.password b in
  try_respond
    (user <- get (fun w => findOne_email (users w) email) ;;
     match user with
     | None => ret (Response 404 (message "User not found"))
     | Some user =>
         passwordMatch <-
           lift (bcrypt_compare password (Some (User.password user))) ;;
         if negb passwordMatch
         then ret (Response 401 (message "Invalid credentials"))
         else
           secret <- get JWT_SECRET ;;
           token <- jwt_sign [("id", User._id user)] secret Jwt.one_day ;;
           ret (Response 200 (JObj [("token", JStr token)]))
     end)
    (fun error => Response 500 (JObj [("error", JStr error)])).

(** *** The server file: [userSchema.pre('save')], [comparePassword],
    [app.post('/api/register')] and [app.post('/api/login')]

    The registration handler is read up to its first
    [res.status(201).json(...)]; the text that follows it repeats part of
    the handler and does not parse. *)

(** The server file requires express, mongoose, dotenv, cors and bcryptjs,
    and not jsonwebtoken: [jwt] is not defined in it, and evaluating
    [jwt.sign(...)] throws a ReferenceError before anything is signed. *)
Definition jwt_undefined_sign (payload : list (string * ObjectId))
    (secretOrPrivateKey : option string) (expiresIn : Z) : M string :=
  throw "jwt is not defined".

(** [user.save()] on a new document: validation, then the [pre('save')]
    hook, for which [isModified('password')] holds, then the insertion.
    The result is the document as the hook left it. *)
Definition userSchema_save (d : User.doc) : M User.doc :=
  if userSchema_validate d then
    salt <- bcrypt_genSalt ;;
    let d' := User.with_password (bcrypt_hash_salt (User.password d) salt) d in
    store_user true d' ;;;
    ret d'
  else throw "User validation failed".

Definition comparePassword (this_password : option string)
    (candidatePassword : option string) : result bool :=
  bcrypt_compare candidatePassword this_password.

Definition failure (k s : string) : json :=
  JObj [("success", JBool false); (k, JStr s)].

Definition opt_str (v : option string) : json :=
  match v with
  | Some s => JStr s
  | None => JNull
  end.

Definition api_register_POST (b : Body.t) : World -> response * World :=
  let name := Body.name b in
  let phoneNumber := Body.phoneNumber b in
  let city := Body.city b in
  let email := Body.email b in
  let password := Body.password b in
  try_respond
    (if JS.falsy name || JS.falsy phoneNumber || JS.falsy city
        || JS.falsy email || JS.falsy password
     then ret (Response 400 (failure "message" "All fields are required"))
     else if negb (emailRegex (str email))
     then ret (Response 400
                 (failure "message" "Please enter a valid email address"))
     else if negb (phoneRegex (str phoneNumber))
     then ret (Response 400
                 (failure "message"
                    "Please enter a valid 10-digit phone number"))
     else if (String.length (str password) <? 6)%nat
     then ret (Response 400
                 (failure "message"
                    "Password must be at least 6 characters long"))
     else
       existingUser <-
         get (fun w => userSchema_findOne_email (users w) email) ;;
       match existingUser with
       | Some _ =>
           ret (Response 400 (failure "message" "Email already exists"))
       | None =>
           id <- new_oid ;;
           created <- get now ;;
           saved <- userSchema_save
                      (userSchema_new id (str name) (str phoneNumber)
                         (str city) (str email) (str password) created) ;;
           secret <- get JWT_SECRET ;;
           token <- jwt_undefined_sign [("userId", User._id saved)]
                      (if JS.falsy secret then Some "your-secret-key"
                       else secret)
                      Jwt.one_hour ;;
           ret (Response 201
                  (JObj [("success", JBool true);
                         ("message", JStr "Registration successful");
                         ("user",
                          JObj [("id", JOid (User._id saved));
                                ("name", JStr (User.name saved));
                                ("email", JStr (User.email saved));
                                ("city", opt_str (User.city saved));
                                ("phoneNumber",
                                 opt_str (User.phoneNumber saved))]);
                         ("token", JStr token)]))
       end)
    (fun _ =>
       Response 500
         (failure "error" "Registration failed. Please try again later.")).

Definition api_login_POST (b : Body.t) : World -> response * World :=
  let email := Body.email b in
  let password := Body.password b in
  try_respond
    (if JS.falsy email || JS.falsy password
     then ret (Response 400
                 (failure "error" "Email and password are required"))
     else
       user <- get (fun w => userSchema_findOne_email (users w) email) ;;
       match user with
       | None =>
           ret (Response 401 (failure "error" "Invalid email or password"))
       | Some user =>
           isMatch <-
             lift (comparePassword (userSchema_selected_password user)
                     password) ;;
           if negb isMatch
           then ret (Response 401
                       (failure "error" "Invalid email or password"))
           else
             secret <- get JWT_SECRET ;;
             token <- jwt_undefined_sign [("userId", User._id user)] secret
                        Jwt.one_day ;;
             ret (Response 200
                    (JObj [("success", JBool true);
                           ("message", JStr "Login successful");
                           ("token", JStr token);
                           ("user",
                            JObj [("id", JOid (User._id user));
                                  ("name", JStr (User.name user));
                                  ("email", JStr (User.email user));
                                  ("phoneNumber",
                                   opt_str (User.phoneNumber user));
                                  ("city", opt_str (User.city user))])]))
       end)
    (fun _ =>
       Response 500
         (failure "error" "Login failed. Please try again later.")).

(** *** app/api/payment/route.js: [POST]

    The request body is what [request.json()] yields, or the error it
    throws.  Besides the response, the handler's result lists the charges
    it asked the processor to create. *)

Definition payment_POST (parsed : result json)
    : response * list Charge.request :=
  match parsed with
  | Throw e => (Response 500 (failure "message" e), [])
  | Ok JNull =>
      (Response 500
         (failure "message"
            "Cannot destructure property 'token' of 'body' as it is null."),
       [])
  | Ok body =>
      let token := prop "token" body in
      let amount := prop "amount" body in
      if json_falsy token || json_falsy amount
      then (Response 400 (failure "message" "Missing token or amount."), [])
      else
        let charge :=
          Charge.Make
            match amount with Some a => a | None => JNull end
            "inr"
            match token with Some t => prop "id" t | None => None end
            "Supermarket payment" in
        match stripe_charges_create charge with
        | Ok id =>
            (Response 200 (JObj [("success", JBool true); ("data", JStr id)]),
             [charge])
        | Throw e => (Response 500 (failure "message" e), [charge])
        end
  end.

Close Scope js_scope.

(** ** What a registration writes *)

(** The salt [bcrypt.genSalt] draws in a world. *)
Definition salt_of (w : World) : string :=
  "$2a$10$" ++ random_chars 22 (rng w).

(** The token [jwt.sign] returns for a payload at clock time [t]. *)
Definition signed (payload : list (string * ObjectId)) (secret : string)
    (expiresIn t : Z) : string :=
  Jwt.encode (Jwt.Claims payload t (t + expiresIn))
  ++ hs256 secret (Jwt.encode (Jwt.Claims payload t (t + expiresIn))).

Definition after_insert (u : User.doc) (w : World) : World :=
  mkWorld (users w ++ [u])%list (carts w) (products w) (JWT_SECRET w) (now w)
          (N.succ (next_oid w)) (N.succ (rng w)).

(** register/route.js persists a user when the three fields are there, the
    email is not registered and the generated [_id] is new. *)
Definition register_accepts (b : Body.t) (w : World) : bool :=
  negb (JS.falsy (Body.name b) || JS.falsy (Body.email b)
        || JS.falsy (Body.password b))
  && match findOne_email (users w) (Body.email b) with
     | None => true
     | Some _ => false
     end
  && negb (id_taken (next_oid w) (users w)).

Definition register_user (b : Body.t) (w : World) : User.doc :=
  User.Doc (next_oid w) (str (Body.name b)) (str (Body.email b))
           (bcrypt_hash_salt (str (Body.password b)) (salt_of w))
           None None None [].

(** The server file persists a user when its own checks and the
    validators of its schema pass, the email is not registered and the
    generated [_id] is new. *)
Definition api_register_draft (b : Body.t) (w : World) : User.doc :=
  userSchema_new (next_oid w) (str (Body.name b)) (str (Body.phoneNumber b))
                 (str (Body.city b)) (str (Body.email b))
                 (str (Body.password b)) (now w).

Definition api_register_accepts (b : Body.t) (w : World) : bool :=
  negb (JS.falsy (Body.name b) || JS.falsy (Body.phoneNumber b)
        || JS.falsy (Body.city b) || JS.falsy (Body.email b)
        || JS.falsy (Body.password b))
  && emailRegex (str (Body.email b))
  && phoneRegex (str (Body.phoneNumber b))
  && negb (String.length (str (Body.password b)) <? 6)%nat
  && match userSchema_findOne_email (users w) (Body.email b) with
     | None => true
     | Some _ => false
     end
  && userSchema_validate (api_register_draft b w)
  && negb (id_taken (next_oid w) (users w)).

Definition api_register_user (b : Body.t) (w : World) : User.doc :=
  User.with_password
    (bcrypt_hash_salt (str (Body.password b)) (salt_of w))
    (api_register_draft b w).

(** What register/route.js answers once the user is stored. *)
Definition register_response (b : Body.t) (w : World) : response :=
  if JS.falsy (JWT_SECRET w)
  then Response 500 (message "An error occurred. Please try again later.")
  else Response 201
         (JObj [("success", JBool true);
                ("token",
                 JStr (signed [("userId", next_oid w)] (str (JWT_SECRET w))
                         Jwt.one_hour (now w)))]).

(** What the server file answers once the user is stored: [jwt.sign]
    throws, and the [catch] sends the failure. *)
Definition api_register_failure : response :=
  Response 500
    (failure "error" "Registration failed. Please try again later.").



(** ** Runs of the application *)

Inductive request : Type :=
| POST_register (b : Body.t)               (* router.post('/register') *)
| POST_login (b : Body.t)                  (* app/api/login/route.js *)
| GET_cart (authorization : option string) (* router.get('/') of the cart *)
| POST_api_register (b : Body.t)           (* app.post('/api/register') *)
| POST_api_login (b : Body.t).             (* app.post('/api/login') *)

Definition handle (r : request) : World -> response * World :=
  match r with
  | POST_register b => register_POST b
  | POST_login b => login_POST b
  | GET_cart a => cart_GET a
  | POST_api_register b => api_register_POST b
  | POST_api_login b => api_login_POST b
  end.

(** Between two requests the clock may have moved. *)
Inductive event : Type :=
| Request (r : request)
| Clock (t : Z).

Definition set_now (t : Z) (w : World) : World :=
  mkWorld (users w) (carts w) (products w) (JWT_SECRET w) t (next_oid w)
          (rng w).

Definition step (e : event) (w : World) : World :=
  match e with
  | Request r => snd (handle r w)
  | Clock t => set_now t w
  end.

Definition run (es : list event) (w : World) : World :=
  fold_left (fun w e => step e w) es w.

(** The states of the store that the application and the two models can
    produce: from empty collections, by handling requests and by saving
    documents through [User] (models/User.js) and [Cart]. *)
Inductive reachable : World -> Prop :=
| reach_empty (w : World) :
    users w = [] -> carts w = [] -> reachable w
| reach_step (e : event) (w : World) :
    reachable w -> reachable (step e w)
| reach_User_save (isNew : bool) (d : User.doc) (w : World) :
    reachable w -> reachable (snd (User_save isNew d w))
| reach_Cart_save (isNew : bool) (d : Cart.doc) (w : World) :
    reachable w -> reachable (snd (Cart_save isNew d w)).

(** Another user's cart is replaced. *)
Definition set_cart (B : ObjectId) (c : list LineItem.t) (w : World) : World :=
  set_users
    (map (fun u => if N.eqb (User._id u) B then User.with_cart c u else u)
         (users w))
    w.

(** A quantity is a positive integer. *)
Definition positive_integer (n : number) : bool :=
  is_integer n && at_least_one n.

(** The cart invariant of the data model, on the embedded cart of a user
    and on a standalone cart document. *)
Definition user_cart_ok (u : User.doc) : Prop :=
  (forall it, In it (User.cart u) ->
     exists q, LineItem.quantity it = Some q /\ positive_integer q = true) /\
  NoDup (map LineItem.productId (User.cart u)).

Definition cart_doc_ok (c : Cart.doc) : Prop :=
  (forall it, In it (Cart.items c) ->
     exists q, Cart.quantity it = Some q /\ positive_integer q = true) /\
  NoDup (map Cart.productId (Cart.items c)).

Definition cart_invariant (w : World) : Prop :=
  (forall u, In u (users w) -> user_cart_ok u) /\
  (forall c, In c (carts w) -> cart_doc_ok c).

(** What validation does establish for a stored line item. *)
Definition user_item_checked (it : LineItem.t) : Prop :=
  exists p q, LineItem.productId it = Some p /\
              LineItem.quantity it = Some q /\ at_least_one q = true.

Definition cart_item_checked (it : Cart.item) : Prop :=
  exists p q r, Cart.productId it = Some p /\ Cart.quantity it = Some q /\
                Cart.price it = Some r.

Definition validated (w : World) : Prop :=
  (forall u it, In u (users w) -> In it (User.cart u) ->
     user_item_checked it) /\
  (forall c it, In c (carts w) -> In it (Cart.items c) ->
     cart_item_checked it).


(** ** The rest of the server file *)

(** [corsOptions.origin]: what the function hands to its callback as the
    second argument; the first, the error, is always [null]. *)
Inductive cors_answer : Type :=
| CorsTrue                      (* [callback(null, true)] *)
| CorsOrigin (origin : string)  (* [callback(null, origin)] *)
| CorsFalse.                    (* [callback(null, false)] *)

Definition allowedOrigins : list string :=
  ["http://localhost:3000"; "http://localhost:3001"; ""].

(** [list.includes(s)] *)
Definition includes (s : string) (l : list string) : bool :=
  existsb (String.eqb s) l.

Definition corsOptions_origin (origin : option string) : cors_answer :=
  if JS.falsy origin then CorsTrue
  else if includes (str origin) allowedOrigins then CorsOrigin (str origin)
  else CorsFalse.

(** [app.get('/api/user/:email')]; the route parameter is a string. *)
Definition api_user_GET (email : string) : World -> response * World :=
  try_respond
    (bind (get (fun w => userSchema_findOne_email (users w) (Some email)))
       (fun user =>
          match user with
          | None => ret (Response 404 (failure "error" "User not found"))
          | Some user =>
              ret (Response 200
                     (JObj [("success", JBool true);
                            ("data",
                             JObj [("name", JStr (User.name user));
                                   ("email", JStr (User.email user));
                                   ("city", opt_str (User.city user));
                                   ("phoneNumber",
                                    opt_str (User.phoneNumber user))])]))
          end))
    (fun _ => Response 500 (failure "error" "Failed to fetch user")).

(** ** Shapes of stored data *)

(** The emails and the [_id]s of a collection are pairwise distinct. *)
Definition distinct_users (us : list User.doc) : Prop :=
  NoDup (map User.email us) /\ NoDup (map User._id us).

(** A stored password has the form of a bcrypt hash: sixty characters that
    start with the version and the cost. *)
Definition bcrypt_shaped (s : string) : Prop :=
  String.length s = 60%nat /\ substring 0 7 s = "$2a$10$".

(** The answer is one the middleware sends: status 401. *)
Definition refused (p : passed) : Prop :=
  exists b, p = Sent (Response 401 b).

(** * Properties *)

(** ** Strings *)

Lemma string_app_assoc (a b c : string) : (a ++ b) ++ c = a ++ (b ++ c).
Proof. induction a as [|x a IH]; simpl; [reflexivity | now rewrite IH]. Qed.

Lemma string_app_length (a b : string) :
  String.length (a ++ b) = (String.length a + String.length b)%nat.
Proof. induction a as [|x a IH]; simpl; [reflexivity | now rewrite IH]. Qed.

Lemma mem_app (c : ascii) (a b : string) :
  JS.mem c (a ++ b) = JS.mem c a || JS.mem c b.
Proof.
  induction a as [|x a IH]; simpl; [reflexivity|].
  now rewrite IH, orb_assoc.
Qed.

Lemma split_not_nil (sep : ascii) (s : string) : JS.split sep s <> [].
Proof.
  destruct s as [|c r]; simpl; [discriminate|].
  destruct (Ascii.eqb c sep); [discriminate|].
  destruct (JS.split sep r); discriminate.
Qed.

(** A string without the separator is the only piece of its split. *)
Lemma split_without (sep : ascii) (s : string) :
  JS.mem sep s = false -> JS.split sep s = [s].
Proof.
  induction s as [|c r IH]; simpl; intros H; [reflexivity|].
  apply orb_false_iff in H as [Hc Hr].
  now rewrite Hc, (IH Hr).
Qed.

(** The first piece of a split ends at the first separator. *)
Lemma split_first (sep : ascii) (a b : string) :
  JS.mem sep a = false ->
  JS.split sep (a ++ String sep b) = a :: JS.split sep b.
Proof.
  induction a as [|c r IH]; simpl; intros H.
  - now rewrite Ascii.eqb_refl.
  - apply orb_false_iff in H as [Hc Hr].
    now rewrite Hc, (IH Hr).
Qed.

Lemma substring_prefix (a b : string) :
  substring 0 (String.length a) (a ++ b) = a.
Proof.
  induction a as [|c r IH]; simpl.
  - now destruct b.
  - now rewrite IH.
Qed.

(** ** The serialisation round trip *)

Lemma pos_ok : Wire.codec_ok Wire.enc_pos Wire.dec_pos.
Proof.
  intros p rest. induction p as [q IH|q IH|]; simpl.
  - now rewrite IH.
  - now rewrite IH.
  - reflexivity.
Qed.

Lemma N_ok : Wire.codec_ok Wire.enc_N Wire.dec_N.
Proof.
  intros n rest. unfold Wire.enc_N, Wire.dec_N. rewrite pos_ok.
  now rewrite N.pos_pred_succ.
Qed.

Lemma Z_ok : Wire.codec_ok Wire.enc_Z Wire.dec_Z.
Proof.
  intros [|p|p] rest; simpl; try reflexivity; now rewrite pos_ok.
Qed.

Lemma take_all (s rest : string) :
  Wire.take (String.length s) (s ++ rest) = Some (s, rest).
Proof. induction s as [|c s IH]; simpl; [reflexivity | now rewrite IH]. Qed.

Lemma str_ok : Wire.codec_ok Wire.enc_str Wire.dec_str.
Proof.
  intros s rest. unfold Wire.enc_str, Wire.dec_str.
  rewrite string_app_assoc, N_ok, Nat2N.id. apply take_all.
Qed.

Lemma pair_ok {A B : Type} (ea : A -> string) (da : Wire.decoder A)
    (eb : B -> string) (db : Wire.decoder B) :
  Wire.codec_ok ea da -> Wire.codec_ok eb db ->
  Wire.codec_ok (Wire.enc_pair ea eb) (Wire.dec_pair da db).
Proof.
  intros Ha Hb [a b] rest. unfold Wire.enc_pair, Wire.dec_pair; simpl.
  now rewrite string_app_assoc, Ha, Hb.
Qed.

Lemma items_ok {A : Type} (ea : A -> string) (da : Wire.decoder A) :
  Wire.codec_ok ea da ->
  forall l rest,
    Wire.dec_items da (List.length l) (Wire.enc_items ea l ++ rest)
    = Some (l, rest).
Proof.
  intros Ha l. induction l as [|a l IH]; intros rest; simpl.
  - reflexivity.
  - now rewrite string_app_assoc, Ha, IH.
Qed.

Lemma list_ok {A : Type} (ea : A -> string) (da : Wire.decoder A) :
  Wire.codec_ok ea da -> Wire.codec_ok (Wire.enc_list ea) (Wire.dec_list da).
Proof.
  intros Ha l rest. unfold Wire.enc_list, Wire.dec_list.
  rewrite string_app_assoc, N_ok, Nat2N.id. now apply items_ok.
Qed.

Lemma claims_ok : Wire.codec_ok Jwt.encode Jwt.decode.
Proof.
  intros [p i e] rest. unfold Jwt.encode, Jwt.decode; simpl.
  rewrite !string_app_assoc.
  unfold Jwt.dec_payload, Jwt.enc_payload.
  rewrite (list_ok _ _ (pair_ok _ _ _ _ str_ok N_ok)).
  now rewrite !Z_ok.
Qed.

Lemma enc_pos_not_empty (p : positive) (rest : string) :
  Wire.enc_pos p ++ rest <> "".
Proof. destruct p; discriminate. Qed.

Lemma encode_not_empty (c : Jwt.claims) (rest : string) :
  Jwt.encode c ++ rest <> "".
Proof.
  unfold Jwt.encode, Jwt.enc_payload, Wire.enc_list, Wire.enc_N.
  rewrite !string_app_assoc. apply enc_pos_not_empty.
Qed.

(** ** jsonwebtoken: signing, then verifying *)

Lemma jwt_sign_falsy (payload : list (string * ObjectId))
    (secret : option string) (ttl : Z) (w : World) :
  JS.falsy secret = true ->
  jwt_sign payload secret ttl w
  = (Throw "secretOrPrivateKey must have a value", w).
Proof. unfold jwt_sign. now intros ->. Qed.

(** A token verified under the secret it was signed with yields its claims
    before [exp], and is refused from [exp] on. *)
Lemma jwt_verify_signed (c : Jwt.claims) (secret : option string) (t : Z) :
  JS.falsy secret = false ->
  jwt_verify (Jwt.encode c ++ hs256 (str secret) (Jwt.encode c)) secret t
  = if (Jwt.exp c <=? t)%Z then Throw "jwt expired" else Ok c.
Proof.
  intros Hs. unfold jwt_verify. rewrite claims_ok, Hs.
  now rewrite String.eqb_refl.
Qed.

(** ** The authorization middleware *)

Lemma authMiddleware_piece (scheme rest : string) (w : World) :
  JS.mem " " scheme = false ->
  authMiddleware (Some (scheme ++ String " " rest)) w
  = match JS.split " " rest with
    | tok :: _ =>
        if String.eqb tok "" then no_token
        else match jwt_verify tok (JWT_SECRET w) (now w) with
             | Ok decoded => Next (assoc "id" (Jwt.payload decoded))
             | Throw _ => bad_token
             end
    | [] => no_token
    end.
Proof.
  intros H. unfold authMiddleware. rewrite (split_first _ _ _ H).
  destruct (JS.split " " rest) as [|tok l] eqn:E; [reflexivity|].
  reflexivity.
Qed.


(** ** The cart of the authenticated user *)

Lemma find_user_set_cart (A B : ObjectId) (c : list LineItem.t)
    (us : list User.doc) :
  B <> A ->
  find (fun u => N.eqb (User._id u) A)
       (map (fun u => if N.eqb (User._id u) B then User.with_cart c u else u)
            us)
  = find (fun u => N.eqb (User._id u) A) us.
Proof.
  intros Hne. induction us as [|u us IH]; simpl; [reflexivity|].
  destruct (N.eqb (User._id u) B) eqn:EB; simpl.
  - apply N.eqb_eq in EB.
    assert (EA : N.eqb (User._id u) A = false)
      by (apply N.eqb_neq; congruence).
    now rewrite EA.
  - destruct (N.eqb (User._id u) A); [reflexivity | exact IH].
Qed.

Lemma cart_GET_authorized (authorization : option string) (w : World)
    (id : option ObjectId) :
  authMiddleware authorization w = Next id ->
  cart_GET authorization w
  = (match findById (users w) id with
     | None => Response 404 (message "User not found")
     | Some user =>
         Response 200 (JArr (map (populate (products w)) (User.cart user)))
     end, w).
Proof.
  intros H. unfold cart_GET. rewrite H. unfold try_respond, ret.
  now destruct (findById (users w) id).
Qed.

(** C1. When the token of a [GET /cart] request resolves to user [A], the
    handler writes nothing, answers with the populated cart of [A]'s
    document, and gives the same answer whatever cart another user [B] has
    been given in the meantime. *)
Theorem cart_GET_isolated :
  forall (w : World) (authorization : option string) (A : ObjectId),
    authMiddleware authorization w = Next (Some A) ->
    snd (cart_GET authorization w) = w
    /\ (forall u,
          findById (users w) (Some A) = Some u ->
          fst (cart_GET authorization w)
          = Response 200 (JArr (map (populate (products w)) (User.cart u))))
    /\ (forall (B : ObjectId) (c : list LineItem.t),
          B <> A ->
          cart_GET authorization (set_cart B c w)
          = (fst (cart_GET authorization w), set_cart B c w)).
Proof.
  intros w a A H. rewrite (cart_GET_authorized _ _ _ H). repeat split.
  - intros u Hu. cbn [fst]. now rewrite Hu.
  - intros B c Hne.
    assert (H' : authMiddleware a (set_cart B c w) = Next (Some A))
      by exact H.
    rewrite (cart_GET_authorized _ _ _ H').
    unfold findById, set_cart, set_users. cbn [users products fst].
    now rewrite (find_user_set_cart A B c (users w) Hne).
Qed.

(** Projections of records that are given by their fields. *)
Ltac fields :=
  cbn [users carts products JWT_SECRET now next_oid rng
       set_users set_carts set_next_oid set_rng set_now
       User._id User.name User.email User.password User.phoneNumber
       User.city User.createdAt User.cart
       Body.name Body.email Body.password Body.phoneNumber Body.city
       status body fst snd] in *.

(** ** Registration, case by case *)

Lemma find_email_none_not_taken (d : User.doc) (us : list User.doc) :
  find (fun u => String.eqb (User.email u) (User.email d)) us = None ->
  email_taken d us = false.
Proof.
  unfold email_taken. induction us as [|u us IH]; simpl; [reflexivity|].
  destruct (String.eqb (User.email u) (User.email d)); [discriminate|].
  exact IH.
Qed.

Lemma salt_of_length (w : World) : String.length (salt_of w) = 29%nat.
Proof. reflexivity. Qed.

Lemma bcrypt_hash_salt_not_empty (s : string) (w : World) :
  String.eqb (bcrypt_hash_salt s (salt_of w)) "" = false.
Proof. reflexivity. Qed.

Lemma register_POST_accepted (b : Body.t) (w : World) :
  register_accepts b w = true ->
  register_POST b w
  = (register_response b w, after_insert (register_user b w) w).
Proof.
  unfold register_accepts, register_POST, register_response, register_user.
  destruct b as [n e p ph ci]. cbn [Body.name Body.email Body.password].
  intros H.
  apply andb_prop in H as [H Hid]. apply andb_prop in H as [Hf Hfind].
  apply negb_true_iff in Hf, Hid. rewrite Hf.
  destruct (findOne_email (users w) e) eqn:Efind; [discriminate|].
  apply orb_false_iff in Hf as [Hf Hpw]. apply orb_false_iff in Hf as [Hn He].
  destruct n as [n|]; [|discriminate].
  destruct e as [e|]; [|discriminate].
  destruct p as [p|]; [|discriminate].
  cbn [JS.falsy str] in *.
  unfold bcrypt_hash.
  unfold try_respond, bind, get, ret, bcrypt_genSalt, new_oid, User_save,
    UserSchema_validate.
  rewrite Efind. cbv beta iota zeta.
  cbn [User.name User.email User.password User.cart User._id].
  change ("$2a$10$" ++ random_chars 22 (rng w)) with (salt_of w).
  rewrite Hn, He, bcrypt_hash_salt_not_empty.
  cbn [negb andb List.forallb].
  unfold store_user.
  cbn [users set_rng set_next_oid User._id next_oid].
  rewrite find_email_none_not_taken by exact Efind.
  rewrite Hid.
  unfold jwt_sign, after_insert, signed.
  cbn [JWT_SECRET set_users set_rng set_next_oid users carts products now
       next_oid rng].
  destruct (JS.falsy (JWT_SECRET w)); reflexivity.
Qed.


Lemma register_POST_refused (b : Body.t) (w : World) :
  register_accepts b w = false ->
  status (fst (register_POST b w)) <> 201%Z
  /\ users (snd (register_POST b w)) = users w
  /\ carts (snd (register_POST b w)) = carts w.
Proof.
  unfold register_accepts, register_POST.
  destruct (JS.falsy (Body.name b) || JS.falsy (Body.email b)
            || JS.falsy (Body.password b)) eqn:Hf;
    [intros _; now repeat split|].
  destruct (findOne_email (users w) (Body.email b)) eqn:Efind.
  - intros _. unfold try_respond, bind, get, ret. rewrite Efind. now repeat split.
  - cbn [negb andb]. intros Hid. apply negb_false_iff in Hid.
    unfold bcrypt_hash.
    unfold try_respond, bind, get, ret, bcrypt_genSalt, new_oid, User_save.
    rewrite Efind. cbv beta iota zeta.
    destruct (UserSchema_validate _); [|now repeat split].
    unfold store_user.
    cbn [users set_rng set_next_oid User._id next_oid].
    destruct (email_taken _ _); [now repeat split|].
    rewrite Hid. now repeat split.
Qed.

Lemma api_register_POST_accepted (b : Body.t) (w : World) :
  api_register_accepts b w = true ->
  api_register_POST b w
  = (api_register_failure, after_insert (api_register_user b w) w).
Proof.
  unfold api_register_accepts, api_register_POST, api_register_failure,
    api_register_user, api_register_draft.
  destruct b as [n e p ph ci].
  cbn [Body.name Body.email Body.password Body.phoneNumber Body.city].
  intros H.
  apply andb_prop in H as [H Hid]. apply andb_prop in H as [H Hval].
  apply andb_prop in H as [H Hfind]. apply andb_prop in H as [H Hlen].
  apply andb_prop in H as [H Hphone]. apply andb_prop in H as [Hf Hmail].
  apply negb_true_iff in Hf, Hid, Hlen.
  destruct (userSchema_findOne_email (users w) e) eqn:Efind; [discriminate|].
  unfold try_respond, bind, get, ret, new_oid, userSchema_save.
  rewrite Hf, Hmail, Hphone, Hlen. cbn [negb]. cbv beta.
  rewrite Efind. cbv beta iota zeta.
  cbn [negb next_oid now set_next_oid].
  rewrite Hval.
  unfold bind, bcrypt_genSalt, ret, store_user. cbv beta iota zeta.
  unfold User.with_password, userSchema_new. fields.
  change ("$2a$10$" ++ random_chars 22 (rng w)) with (salt_of w).
  rewrite find_email_none_not_taken.
  2:{ unfold userSchema_findOne_email, findOne_email in Efind. fields.
      destruct e as [e|]; [exact Efind|].
      apply orb_false_iff in Hf as [Hf _].
      apply orb_false_iff in Hf as [_ Hf]. discriminate. }
  rewrite Hid.
  unfold jwt_undefined_sign, throw, after_insert. fields. reflexivity.
Qed.

Lemma api_register_POST_known (b : Body.t) (w : World) (u : User.doc) :
  userSchema_findOne_email (users w) (Body.email b) = Some u ->
  status (fst (api_register_POST b w)) = 400%Z
  /\ snd (api_register_POST b w) = w.
Proof.
  intros Hu. unfold api_register_POST, try_respond.
  destruct (JS.falsy (Body.name b) || JS.falsy (Body.phoneNumber b)
            || JS.falsy (Body.city b) || JS.falsy (Body.email b)
            || JS.falsy (Body.password b)); [now split|].
  destruct (negb (emailRegex _)); [now split|].
  destruct (negb (phoneRegex _)); [now split|].
  destruct (_ <? 6)%nat; [now split|].
  unfold bind, get, ret. rewrite Hu. now split.
Qed.

Lemma api_register_POST_refused (b : Body.t) (w : World) :
  api_register_accepts b w = false ->
  status (fst (api_register_POST b w)) <> 201%Z
  /\ users (snd (api_register_POST b w)) = users w
  /\ carts (snd (api_register_POST b w)) = carts w.
Proof.
  unfold api_register_accepts, api_register_POST, try_respond,
    api_register_draft.
  destruct (JS.falsy (Body.name b) || JS.falsy (Body.phoneNumber b)
            || JS.falsy (Body.city b) || JS.falsy (Body.email b)
            || JS.falsy (Body.password b));
    [intros _; now repeat split|].
  destruct (emailRegex _); [|intros _; now repeat split].
  destruct (phoneRegex _); [|intros _; now repeat split].
  destruct (_ <? 6)%nat; [intros _; now repeat split|].
  cbn [negb andb]. unfold bind, get, ret, new_oid, userSchema_save.
  destruct (userSchema_findOne_email (users w) (Body.email b));
    [intros _; now repeat split|].
  cbv beta iota zeta. fields.
  destruct (userSchema_validate _); [|intros _; now repeat split].
  cbn [andb]. intros Hid. apply negb_false_iff in Hid.
  unfold bind, bcrypt_genSalt, ret, store_user. cbv beta iota zeta.
  unfold User.with_password, userSchema_new. fields.
  destruct (email_taken _ _); [now repeat split|].
  rewrite Hid. now repeat split.
Qed.

(** A response of 201 from register/route.js means the registration was
    accepted. *)
Lemma register_POST_201 (b : Body.t) (w : World) :
  status (fst (register_POST b w)) = 201%Z -> register_accepts b w = true.
Proof.
  intros H. destruct (register_accepts b w) eqn:E; [reflexivity|].
  now destruct (register_POST_refused _ _ E).
Qed.

(** ** Logging in *)

Lemma login_POST_reads (b : Body.t) (w : World) : snd (login_POST b w) = w.
Proof.
  unfold login_POST, try_respond, bind, get, ret, lift.
  destruct (findOne_email (users w) (Body.email b)); [|reflexivity].
  destruct (bcrypt_compare _ _) as [[|]|]; cbn [negb]; try reflexivity.
  unfold jwt_sign. now destruct (JS.falsy (JWT_SECRET w)).
Qed.

Lemma api_login_POST_reads (b : Body.t) (w : World) :
  snd (api_login_POST b w) = w.
Proof.
  unfold api_login_POST, try_respond, bind, get, ret, lift.
  destruct (_ || _); [reflexivity|].
  destruct (userSchema_findOne_email (users w) (Body.email b));
    [|reflexivity].
  destruct (comparePassword _ _) as [[|]|]; cbn [negb]; reflexivity.
Qed.

Lemma cart_GET_reads (a : option string) (w : World) :
  snd (cart_GET a w) = w.
Proof.
  unfold cart_GET. destruct (authMiddleware a w); [|reflexivity].
  unfold try_respond, ret. now destruct (findById (users w) userId).
Qed.

(** ** Documents stay *)

(** No handler removes or rewrites a stored user or touches a cart
    document: a request at most appends a user, whose cart is empty. *)
Lemma handle_effect (r : request) (w : World) :
  carts (snd (handle r w)) = carts w
  /\ exists l, users (snd (handle r w)) = (users w ++ l)%list
               /\ Forall (fun u => User.cart u = []) l.
Proof.
  assert (Hsame : forall w', users w' = users w -> carts w' = carts w ->
            carts w' = carts w
            /\ exists l, users w' = (users w ++ l)%list
                         /\ Forall (fun u => User.cart u = []) l).
  { intros w' Hu Hc. split; [exact Hc|]. exists [].
    now rewrite app_nil_r. }
  destruct r as [b|b|a|b|b]; cbn [handle].
  - destruct (register_accepts b w) eqn:E.
    + rewrite (register_POST_accepted _ _ E). split; [reflexivity|].
      eexists. split; [reflexivity|]. now constructor.
    + destruct (register_POST_refused _ _ E) as [_ [Hu Hc]]. now apply Hsame.
  - rewrite login_POST_reads. now apply Hsame.
  - rewrite cart_GET_reads. now apply Hsame.
  - destruct (api_register_accepts b w) eqn:E.
    + rewrite (api_register_POST_accepted _ _ E). split; [reflexivity|].
      eexists. split; [reflexivity|]. now constructor.
    + destruct (api_register_POST_refused _ _ E) as [_ [Hu Hc]].
      now apply Hsame.
  - rewrite api_login_POST_reads. now apply Hsame.
Qed.








(** ** The stored password *)

Lemma bcrypt_compare_hashed (s : string) (w : World) :
  (forall salt p, String.length (eksblowfish salt p) = 31%nat) ->
  bcrypt_compare (Some s) (Some (bcrypt_hash_salt s (salt_of w))) = Ok true.
Proof.
  intros Hlen. unfold bcrypt_compare, bcrypt_hash_salt.
  rewrite string_app_length, salt_of_length, Hlen. cbn [Nat.add Nat.eqb negb].
  change 29%nat with (String.length (salt_of w)).
  now rewrite !substring_prefix, String.eqb_refl.
Qed.

Lemma accepted_password (v : option string) :
  JS.falsy v = false -> v = Some (str v).
Proof. destruct v; [reflexivity | discriminate]. Qed.

(** ** The response to a registration *)

Lemma signed_not_empty (payload : list (string * ObjectId)) (secret : string)
    (ttl t : Z) :
  signed payload secret ttl t <> "".
Proof. apply encode_not_empty. Qed.


(** ** A missing signing secret *)

Lemma jwt_verify_own (payload : list (string * ObjectId)) (secret : string)
    (ttl t0 t : Z) :
  String.eqb secret "" = false ->
  jwt_verify (signed payload secret ttl t0) (Some secret) t
  = if (t0 + ttl <=? t)%Z then Throw "jwt expired"
    else Ok (Jwt.Claims payload t0 (t0 + ttl)).
Proof.
  intros Hs. unfold signed.
  exact (jwt_verify_signed (Jwt.Claims payload t0 (t0 + ttl)) (Some secret)
           t Hs).
Qed.

(** The four answers of register/route.js. *)
Lemma register_POST_answers (b : Body.t) (w : World) :
  fst (register_POST b w) = Response 400 (message "All fields are required")
  \/ fst (register_POST b w) = Response 400 (message "User already exists")
  \/ fst (register_POST b w)
     = Response 500 (message "An error occurred. Please try again later.")
  \/ (register_accepts b w = true
      /\ fst (register_POST b w) = register_response b w).
Proof.
  destruct (register_accepts b w) eqn:E.
  { right; right; right. now rewrite (register_POST_accepted _ _ E). }
  revert E. unfold register_accepts, register_POST.
  destruct (JS.falsy (Body.name b) || JS.falsy (Body.email b)
            || JS.falsy (Body.password b)); [intros _; now left|].
  destruct (findOne_email (users w) (Body.email b)) eqn:Efind.
  { intros _. unfold try_respond, bind, get, ret. rewrite Efind.
    right. now left. }
  cbn [negb andb]. intros Hid. apply negb_false_iff in Hid.
  right. right. left.
  unfold bcrypt_hash.
  unfold try_respond, bind, get, ret, bcrypt_genSalt, new_oid, User_save.
  rewrite Efind. cbv beta iota zeta.
  destruct (UserSchema_validate _); [|reflexivity].
  unfold store_user.
  cbn [users set_rng set_next_oid User._id next_oid].
  destruct (email_taken _ _); [reflexivity|].
  now rewrite Hid.
Qed.

(** The handlers of the server file send no token. *)
Lemma api_register_POST_no_token (b : Body.t) (w : World) :
  prop "token" (body (fst (api_register_POST b w))) = None.
Proof.
  destruct (api_register_accepts b w) eqn:E;
    [now rewrite (api_register_POST_accepted _ _ E)|].
  revert E.
  unfold api_register_accepts, api_register_POST, try_respond,
    api_register_draft.
  destruct (JS.falsy (Body.name b) || JS.falsy (Body.phoneNumber b)
            || JS.falsy (Body.city b) || JS.falsy (Body.email b)
            || JS.falsy (Body.password b)); [reflexivity|].
  destruct (emailRegex _); [|reflexivity].
  destruct (phoneRegex _); [|reflexivity].
  destruct (_ <? 6)%nat; [reflexivity|].
  cbn [negb andb]. unfold bind, get, ret, new_oid, userSchema_save.
  destruct (userSchema_findOne_email (users w) (Body.email b));
    [reflexivity|].
  cbv beta iota zeta. fields.
  destruct (userSchema_validate _); [|reflexivity].
  cbn [andb]. intros Hid. apply negb_false_iff in Hid.
  unfold bind, bcrypt_genSalt, ret, store_user. cbv beta iota zeta.
  unfold User.with_password, userSchema_new. fields.
  destruct (email_taken _ _); [reflexivity|].
  now rewrite Hid.
Qed.

Lemma api_login_POST_no_token (b : Body.t) (w : World) :
  prop "token" (body (fst (api_login_POST b w))) = None.
Proof.
  unfold api_login_POST, try_respond, bind, get, ret, lift.
  destruct (JS.falsy (Body.email b) || JS.falsy (Body.password b));
    [reflexivity|].
  destruct (userSchema_findOne_email (users w) (Body.email b));
    [|reflexivity].
  destruct (comparePassword _ _) as [[|]|]; reflexivity.
Qed.

(** C7, as the handlers have it.  With [JWT_SECRET] absent or empty
    nothing fails when the server starts: the failure is met request by
    request.  In app/api/login/route.js the signing throws inside the
    handler and the request is answered 500 with the error's message; in
    register/route.js the user has been stored by then and the request is
    answered 500.  No handler then answers with a token, so that no token
    is signed with a substitute secret: the server file names a default
    secret, and throws before it signs. *)
Theorem missing_secret_per_request :
  forall (w : World),
    JS.falsy (JWT_SECRET w) = true ->
    (forall (b : Body.t) (u : User.doc),
       findOne_email (users w) (Body.email b) = Some u ->
       bcrypt_compare (Body.password b) (Some (User.password u)) = Ok true ->
       login_POST b w
       = (Response 500
            (JObj [("error", JStr "secretOrPrivateKey must have a value")]),
          w))
    /\ (forall b : Body.t,
          register_accepts b w = true ->
          register_POST b w
          = (Response 500
               (message "An error occurred. Please try again later."),
             after_insert (register_user b w) w))
    /\ (forall b : Body.t,
          prop "token" (body (fst (login_POST b w))) = None
          /\ prop "token" (body (fst (register_POST b w))) = None
          /\ prop "token" (body (fst (api_login_POST b w))) = None
          /\ prop "token" (body (fst (api_register_POST b w))) = None).
Proof.
  intros w Hs. split; [|split].
  - intros b u Hu Hc.
    unfold login_POST, try_respond, bind, get, ret, lift.
    rewrite Hu, Hc. cbn [negb].
    now rewrite (jwt_sign_falsy _ _ _ _ Hs).
  - intros b E. rewrite (register_POST_accepted _ _ E).
    unfold register_response. now rewrite Hs.
  - intros b. split; [|split; [|split]].
    + unfold login_POST, try_respond, bind, get, ret, lift.
      destruct (findOne_email (users w) (Body.email b)); [|reflexivity].
      destruct (bcrypt_compare _ _) as [[|]|]; cbn [negb];
        try reflexivity.
      now rewrite (jwt_sign_falsy _ _ _ _ Hs).
    + destruct (register_POST_answers b w) as [->|[->|[->|[_ ->]]]];
        try reflexivity.
      unfold register_response. now rewrite Hs.
    + apply api_login_POST_no_token.
    + apply api_register_POST_no_token.
Qed.

(** ** What a failed login answers *)

(** C5, as the handlers have it.  app/api/login/route.js answers an email
    that is not registered with 404 [{message: "User not found"}] and a
    wrong password for a registered email with 401
    [{message: "Invalid credentials"}].  The server file answers an email
    that is not registered, when a password is given, with 401
    [{success: false, error: 'Invalid email or password'}]. *)
Theorem failed_login_responses :
  forall (b : Body.t) (w : World),
    (findOne_email (users w) (Body.email b) = None ->
     login_POST b w = (Response 404 (message "User not found"), w))
    /\ (forall u,
          findOne_email (users w) (Body.email b) = Some u ->
          bcrypt_compare (Body.password b) (Some (User.password u))
          = Ok false ->
          login_POST b w = (Response 401 (message "Invalid credentials"), w))
    /\ (JS.falsy (Body.email b) = false ->
        JS.falsy (Body.password b) = false ->
        userSchema_findOne_email (users w) (Body.email b) = None ->
        api_login_POST b w
        = (Response 401 (failure "error" "Invalid email or password"), w)).
Proof.
  intros b w. split; [|split].
  - intros Hn. unfold login_POST, try_respond, bind, get, ret.
    now rewrite Hn.
  - intros u Hu Hc. unfold login_POST, try_respond, bind, get, ret, lift.
    now rewrite Hu, Hc.
  - intros He Hp Hn. unfold api_login_POST, try_respond, bind, get, ret.
    rewrite He, Hp. cbn [orb]. cbv beta. now rewrite Hn.
Qed.

(** In the server file a registered email never reaches the comparison's
    verdict: the stored password is not selected, [bcrypt.compare] throws
    and the request is answered 500. *)
Lemma api_login_POST_registered (b : Body.t) (w : World) (u : User.doc) :
  JS.falsy (Body.email b) = false ->
  JS.falsy (Body.password b) = false ->
  userSchema_findOne_email (users w) (Body.email b) = Some u ->
  api_login_POST b w
  = (Response 500 (failure "error" "Login failed. Please try again later."),
     w).
Proof.
  intros He Hp Hu. unfold api_login_POST, try_respond, bind, get, ret, lift.
  rewrite He, Hp. cbn [orb]. cbv beta. rewrite Hu.
  unfold comparePassword, userSchema_selected_password, bcrypt_compare.
  now destruct (Body.password b).
Qed.

(** ** Tokens and the identity they carry *)

Lemma authMiddleware_signed (payload : list (string * ObjectId))
    (ttl t0 : Z) (w : World) :
  JS.falsy (JWT_SECRET w) = false ->
  JS.mem " " (signed payload (str (JWT_SECRET w)) ttl t0) = false ->
  authMiddleware
    (Some ("Bearer " ++ signed payload (str (JWT_SECRET w)) ttl t0)) w
  = if (t0 + ttl <=? now w)%Z then bad_token
    else Next (assoc "id" payload).
Proof.
  intros Hs Hsp.
  change ("Bearer " ++ signed payload (str (JWT_SECRET w)) ttl t0)
    with ("Bearer" ++ String " " (signed payload (str (JWT_SECRET w)) ttl t0)).
  rewrite authMiddleware_piece by reflexivity.
  rewrite (split_without _ _ Hsp).
  assert (Hne : String.eqb (signed payload (str (JWT_SECRET w)) ttl t0) ""
                = false)
    by (apply String.eqb_neq, signed_not_empty).
  rewrite Hne.
  destruct (JWT_SECRET w) as [k|] eqn:Ek; [|discriminate].
  cbn [str JS.falsy] in *. rewrite (jwt_verify_own _ _ _ _ _ Hs).
  now destruct (t0 + ttl <=? now w)%Z.
Qed.

(** A token of app/api/login/route.js carries the user's [_id] under [id]:
    before it expires the middleware attaches that [_id], from its expiry
    on the request is answered 401. *)
Lemma login_token_resolves (b : Body.t) (w w2 : World) (u : User.doc)
    (token : string) :
  findOne_email (users w) (Body.email b) = Some u ->
  fst (login_POST b w) = Response 200 (JObj [("token", JStr token)]) ->
  JS.mem " " token = false ->
  JWT_SECRET w2 = JWT_SECRET w ->
  authMiddleware (Some ("Bearer " ++ token)) w2
  = if (now w + Jwt.one_day <=? now w2)%Z then bad_token
    else Next (Some (User._id u)).
Proof.
  intros Hu. unfold login_POST, try_respond, bind, get, ret, lift.
  rewrite Hu.
  destruct (bcrypt_compare _ _) as [[|]|]; cbn [negb]; try discriminate.
  unfold jwt_sign.
  destruct (JS.falsy (JWT_SECRET w)) eqn:Hs; [discriminate|].
  cbn [fst]. intros H Hsp Hw2. injection H as <-.
  rewrite <- Hw2 in Hsp, Hs |- *.
  exact (authMiddleware_signed [("id", User._id u)] Jwt.one_day (now w) w2
           Hs Hsp).
Qed.

(** C2, where the code departs from it.  A token that register/route.js
    returns for the user it has just stored carries the [_id] under
    [userId]; the middleware reads [id].  Presented before its expiry under
    the same secret, the token is accepted and the request goes on with
    [req.userId] undefined, so that [GET /cart] answers 404; from its
    expiry on the request is answered 401. *)
Theorem register_token_identity_lost :
  forall (b : Body.t) (w w2 : World) (token : string),
    fst (register_POST b w)
    = Response 201 (JObj [("success", JBool true); ("token", JStr token)]) ->
    JS.mem " " token = false ->
    JWT_SECRET w2 = JWT_SECRET w ->
    exists u,
      users (snd (register_POST b w)) = (users w ++ [u])%list
      /\ ((now w2 < now w + Jwt.one_hour)%Z ->
          authMiddleware (Some ("Bearer " ++ token)) w2 = Next None
          /\ cart_GET (Some ("Bearer " ++ token)) w2
             = (Response 404 (message "User not found"), w2))
      /\ ((now w + Jwt.one_hour <= now w2)%Z ->
          authMiddleware (Some ("Bearer " ++ token)) w2 = bad_token).
Proof.
  intros b w w2 token H Hsp Hw2.
  destruct (register_accepts b w) eqn:E.
  2:{ destruct (register_POST_refused _ _ E) as [Hno _].
      rewrite H in Hno. now elim Hno. }
  rewrite (register_POST_accepted _ _ E) in *. cbn [fst snd] in *.
  unfold register_response in H.
  destruct (JS.falsy (JWT_SECRET w)) eqn:Hs; [discriminate|].
  injection H as <-.
  exists (register_user b w). split; [reflexivity|].
  rewrite <- Hw2 in Hsp, Hs |- *.
  pose proof (authMiddleware_signed [("userId", next_oid w)] Jwt.one_hour
                (now w) w2 Hs Hsp) as Ha.
  split.
  - intros Ht.
    destruct (Z.leb_spec (now w + Jwt.one_hour) (now w2)); [lia|].
    split; [exact Ha|].
    now rewrite (cart_GET_authorized _ _ _ Ha).
  - intros Ht.
    destruct (Z.leb_spec (now w + Jwt.one_hour) (now w2)); [exact Ha | lia].
Qed.

(** ** Carts in the store *)

Lemma UserSchema_item_checked (it : LineItem.t) :
  UserSchema_item_valid it = true -> user_item_checked it.
Proof.
  unfold UserSchema_item_valid, user_item_checked.
  destruct (LineItem.productId it) as [p|]; [|discriminate].
  destruct (LineItem.quantity it) as [q|]; [|discriminate].
  intros H. now exists p, q.
Qed.

Lemma cartSchema_item_checked (it : Cart.item) :
  cartSchema_item_valid it = true -> cart_item_checked it.
Proof.
  unfold cartSchema_item_valid, cart_item_checked.
  destruct (Cart.productId it) as [p|]; [|discriminate].
  destruct (Cart.quantity it) as [q|]; [|discriminate].
  destruct (Cart.price it) as [r|]; [|discriminate].
  intros _. now exists p, q, r.
Qed.

Lemma UserSchema_validate_cart (d : User.doc) (it : LineItem.t) :
  UserSchema_validate d = true -> In it (User.cart d) ->
  user_item_checked it.
Proof.
  unfold UserSchema_validate. intros H Hin.
  apply andb_prop in H as [_ H].
  rewrite List.forallb_forall in H. now apply UserSchema_item_checked, H.
Qed.

Lemma cartSchema_validate_items (d : Cart.doc) (it : Cart.item) :
  cartSchema_validate d = true -> In it (Cart.items d) ->
  cart_item_checked it.
Proof.
  unfold cartSchema_validate. intros H Hin.
  destruct (Cart.userId d); [|discriminate].
  destruct (Cart.totalAmount d); [|discriminate].
  rewrite List.forallb_forall in H. now apply cartSchema_item_checked, H.
Qed.

Lemma User_save_validated (isNew : bool) (d : User.doc) (w : World) :
  validated w -> validated (snd (User_save isNew d w)).
Proof.
  intros [Hu Hc]. unfold User_save.
  destruct (UserSchema_validate d) eqn:Ev; [|now split].
  unfold store_user.
  destruct (email_taken d (users w)); [now split|].
  destruct isNew, (id_taken (User._id d) (users w)); try now split.
  - split; [|exact Hc]. cbn [snd]. fields. intros u it Hin Hit.
    apply in_app_or in Hin as [Hin|[<-|[]]]; [now apply (Hu u)|].
    now apply (UserSchema_validate_cart d).
  - split; [|exact Hc]. cbn [snd]. fields. intros u it Hin Hit.
    unfold replace_user in Hin. apply in_map_iff in Hin as [u0 [Hu0 Hin]].
    destruct (N.eqb (User._id u0) (User._id d)); subst u.
    + now apply (UserSchema_validate_cart d).
    + now apply (Hu u0).
Qed.

Lemma Cart_save_validated (isNew : bool) (d : Cart.doc) (w : World) :
  validated w -> validated (snd (Cart_save isNew d w)).
Proof.
  intros [Hu Hc]. unfold Cart_save.
  destruct (cartSchema_validate d) eqn:Ev; [|now split].
  unfold store_cart.
  destruct isNew, (cart_id_taken (Cart._id d) (carts w)); try now split.
  - split; [exact Hu|]. cbn [snd]. fields. intros c it Hin Hit.
    apply in_app_or in Hin as [Hin|[<-|[]]]; [now apply (Hc c)|].
    now apply (cartSchema_validate_items d).
  - split; [exact Hu|]. cbn [snd]. fields. intros c it Hin Hit.
    unfold replace_cart in Hin. apply in_map_iff in Hin as [c0 [Hc0 Hin]].
    destruct (N.eqb (Cart._id c0) (Cart._id d)); subst c.
    + now apply (cartSchema_validate_items d).
    + now apply (Hc c0).
Qed.

Lemma step_validated (e : event) (w : World) :
  validated w -> validated (step e w).
Proof.
  intros [Hu Hc]. destruct e as [r|t]; cbn [step]; [|now split].
  destruct (handle_effect r w) as [Hcarts [l [Hl Hempty]]].
  split.
  - intros u it Hin Hit. rewrite Hl in Hin.
    apply in_app_or in Hin as [Hin|Hin]; [now apply (Hu u)|].
    rewrite Forall_forall in Hempty. rewrite (Hempty u Hin) in Hit.
    destruct Hit.
  - rewrite Hcarts. exact Hc.
Qed.

(** C8, as the schemas have it.  In every state of the store that handling
    requests and saving documents through the two models can produce, a
    line item of a user's embedded cart has its product reference and a
    quantity of at least 1, and a line item of a standalone cart document
    has its product reference, its quantity and its price.  Nothing asks
    that a product appear in one line item only or that a quantity be an
    integer: states with a product listed twice and with a quantity of one
    and a half can be produced. *)
Theorem stored_carts_validated :
  (forall w : World, reachable w -> validated w)
  /\ (exists w u,
        reachable w /\ In u (users w)
        /\ ~ NoDup (map LineItem.productId (User.cart u)))
  /\ (exists w u it q,
        reachable w /\ In u (users w) /\ In it (User.cart u)
        /\ LineItem.quantity it = Some q /\ is_integer q = false).
Proof.
  split; [|split].
  - intros w H.
    induction H as [w Hu Hc|e w _ IH|isNew d w _ IH|isNew d w _ IH].
    + split; [rewrite Hu | rewrite Hc]; intros ? ? [].
    + now apply step_validated.
    + now apply User_save_validated.
    + now apply Cart_save_validated.
  - exists (snd (User_save true Demo.doubled Demo.world)), Demo.doubled.
    split; [apply reach_User_save; now apply reach_empty|].
    split; [now left|].
    intros Hnodup. inversion Hnodup as [|x l Hnotin _]. apply Hnotin.
    now left.
  - exists (snd (User_save true Demo.halved Demo.world)), Demo.halved.
    eexists. eexists.
    split; [apply reach_User_save; now apply reach_empty|].
    split; [now left|]. split; [now left|]. split; reflexivity.
Qed.

(** ** The payment handler *)

(** What the handler does with a truthy token and a truthy amount. *)
Lemma payment_POST_truthy (body : json) :
  json_falsy (prop "token" body) = false ->
  json_falsy (prop "amount" body) = false ->
  exists token amount,
    prop "token" body = Some token /\ prop "amount" body = Some amount
    /\ payment_POST (Ok body)
       = let charge := Charge.Make amount "inr" (prop "id" token)
                         "Supermarket payment" in
         match stripe_charges_create charge with
         | Ok id =>
             (Response 200
                (JObj [("success", JBool true); ("data", JStr id)]),
              [charge])
         | Throw e => (Response 500 (failure "message" e), [charge])
         end.
Proof.
  intros Ht Ha.
  destruct (prop "token" body) as [token|] eqn:Et; [|discriminate].
  destruct (prop "amount" body) as [amount|] eqn:Ea; [|discriminate].
  exists token, amount. split; [reflexivity|]. split; [reflexivity|].
  unfold payment_POST.
  destruct body; try discriminate. rewrite Et, Ea, Ht, Ha. reflexivity.
Qed.

(** C10, as the handler has it.  When the parsed body yields a falsy
    [token] or a falsy [amount], in particular an [amount] that is the
    number 0, the handler answers 400 and asks the processor for nothing;
    whatever the request, a charge that is handed to the processor has an
    [amount] that is not falsy, so not the number 0.  The test is of
    truthiness alone: with a truthy token, an amount given as a non-empty
    string, ["0"] included, is handed to the processor as it is. *)
Theorem payment_rejects_falsy :
  forall (parsed : result json),
    (forall body,
       parsed = Ok body -> body <> JNull ->
       json_falsy (prop "token" body) || json_falsy (prop "amount" body)
       = true ->
       payment_POST parsed
       = (Response 400 (failure "message" "Missing token or amount."), []))
    /\ (forall body q,
          parsed = Ok body ->
          prop "amount" body = Some (JNum (Fin q)) -> (q == 0)%Q ->
          payment_POST parsed
          = (Response 400 (failure "message" "Missing token or amount."),
             []))
    /\ (forall c,
          In c (snd (payment_POST parsed)) ->
          json_falsy (Some (Charge.amount c)) = false
          /\ Charge.amount c <> JNum (Fin 0))
    /\ (forall body token s,
          parsed = Ok body ->
          prop "token" body = Some token ->
          json_falsy (Some token) = false ->
          prop "amount" body = Some (JStr s) -> s <> "" ->
          snd (payment_POST parsed)
          = [Charge.Make (JStr s) "inr" (prop "id" token)
               "Supermarket payment"]).
Proof.
  intros parsed.
  assert (Hfalsy : forall body,
            body <> JNull ->
            json_falsy (prop "token" body) || json_falsy (prop "amount" body)
            = true ->
            payment_POST (Ok body)
            = (Response 400 (failure "message" "Missing token or amount."),
               [])).
  { intros body Hnn Hf. unfold payment_POST.
    destruct body; try (now elim Hnn); now rewrite Hf. }
  split; [|split; [|split]].
  - intros body -> Hnn Hf. now apply Hfalsy.
  - intros body q -> Ha Hq. apply Hfalsy.
    + intros ->. discriminate.
    + rewrite Ha. cbn [json_falsy number_is_zero].
      apply Qeq_bool_iff in Hq. rewrite Hq. apply orb_true_r.
  - intros c Hin.
    assert (Hc : json_falsy (Some (Charge.amount c)) = false).
    { unfold payment_POST in Hin.
      destruct parsed as [body|e]; [|destruct Hin].
      destruct body; try (now destruct Hin);
        match type of Hin with
        | context [if ?t then _ else _] =>
            destruct t eqn:Ht; [now destruct Hin|]
        end;
        apply orb_false_iff in Ht as [_ Ha];
        (destruct (stripe_charges_create _);
         cbn [snd] in Hin; destruct Hin as [<-|[]]; cbn [Charge.amount];
         match goal with
         | |- context [prop "amount" ?b] =>
             destruct (prop "amount" b); [exact Ha | discriminate]
         end). }
    split; [exact Hc|]. intros E. rewrite E in Hc. discriminate.
  - intros bd token s -> Et Ht Ea Hs.
    assert (Ht' : json_falsy (prop "token" bd) = false) by now rewrite Et.
    assert (Ha' : json_falsy (prop "amount" bd) = false).
    { rewrite Ea. cbn [json_falsy]. now apply String.eqb_neq. }
    destruct (payment_POST_truthy bd Ht' Ha')
      as [token' [amount [Et' [Ea' ->]]]].
    rewrite Et in Et'. injection Et' as <-.
    rewrite Ea in Ea'. injection Ea' as <-. cbv zeta.
    now destruct (stripe_charges_create _).
Qed.

(** * Further properties of the handlers *)

(** ** CORS *)

(** X1. [corsOptions.origin] refuses exactly the non-empty origins other
    than the two localhost ones; the origin it reflects is one of those
    two, so the empty string listed in [allowedOrigins] is never what
    allows a request; and a request without an origin, or with an empty
    one, is allowed outright. *)
Theorem corsOptions_origin_decides :
  forall origin : option string,
    (corsOptions_origin origin = CorsFalse <->
     exists s, origin = Some s /\ s <> "" /\ s <> "http://localhost:3000"
               /\ s <> "http://localhost:3001")
    /\ (forall o, corsOptions_origin origin = CorsOrigin o ->
          origin = Some o
          /\ (o = "http://localhost:3000" \/ o = "http://localhost:3001"))
    /\ (JS.falsy origin = true -> corsOptions_origin origin = CorsTrue).
Proof.
  intros origin. unfold corsOptions_origin, includes, allowedOrigins.
  destruct origin as [s|]; cbn [JS.falsy str existsb].
  2:{ split; [|split]; try discriminate; [|reflexivity].
      split; [discriminate | intros [s [H _]]; discriminate]. }
  destruct (String.eqb_spec s "") as [->|Hne].
  - split; [|split]; try discriminate; [|reflexivity].
    split; [discriminate | intros [s [H [Hs _]]]].
    injection H as <-. now elim Hs.
  - destruct (String.eqb_spec s "http://localhost:3000") as [->|H0].
    + split; [|split]; [| |discriminate].
      * split; [discriminate | intros [s [H [_ [Hs _]]]]].
        injection H as <-. now elim Hs.
      * intros o H. injection H as <-. auto.
    + destruct (String.eqb_spec s "http://localhost:3001") as [->|H1].
      * split; [|split]; [| |discriminate].
        -- split; [discriminate | intros [s [H [_ [_ Hs]]]]].
           injection H as <-. now elim Hs.
        -- intros o H. injection H as <-. auto.
      * cbn [orb]. split; [|split]; try discriminate.
        split; [intros _; now exists s | reflexivity].
Qed.

(** ** The authorization middleware, further *)

(** X2. Whatever the request, the middleware either calls [next()] or
    answers 401, nothing else; it answers 401 when there is no
    [Authorization] header, and for every request when [JWT_SECRET] is
    absent or empty. *)
Theorem authMiddleware_refuses_with_401 :
  forall (authorization : option string) (w : World),
    ((exists id, authMiddleware authorization w = Next id)
     \/ refused (authMiddleware authorization w))
    /\ (authorization = None -> authMiddleware authorization w = no_token)
    /\ (JS.falsy (JWT_SECRET w) = true ->
        refused (authMiddleware authorization w)).
Proof.
  intros a w. unfold authMiddleware, refused.
  set (token := match a with
                | Some h => nth_error (JS.split " " h) 1
                | None => None
                end).
  split; [|split].
  - destruct (JS.falsy token); [right; now eexists|].
    destruct (jwt_verify (str token) (JWT_SECRET w) (now w));
      [left | right]; now eexists.
  - intros ->. reflexivity.
  - intros Hs. destruct (JS.falsy token); [now eexists|].
    unfold jwt_verify. destruct (Jwt.decode (str token)) as [[c sig]|];
      [rewrite Hs|]; now eexists.
Qed.

(** X3. Only the second piece of the header counts: what follows a further
    space after the token is ignored, and a header with two spaces after
    the scheme word carries an empty token and is answered 401 as having
    none, whatever follows. *)
Theorem authMiddleware_second_piece :
  forall (w : World) (X T rest : string),
    JS.mem " " X = false -> JS.mem " " T = false ->
    authMiddleware (Some (X ++ " " ++ T ++ " " ++ rest)) w
    = authMiddleware (Some (X ++ " " ++ T)) w
    /\ authMiddleware (Some (X ++ "  " ++ rest)) w = no_token.
Proof.
  intros w X T rest HX HT. split.
  - change (X ++ " " ++ T ++ " " ++ rest)
      with (X ++ String " " (T ++ String " " rest)).
    change (X ++ " " ++ T) with (X ++ String " " T).
    rewrite !authMiddleware_piece by exact HX.
    now rewrite (split_first _ _ _ HT), (split_without _ _ HT).
  - change (X ++ "  " ++ rest) with (X ++ String " " (String " " rest)).
    rewrite authMiddleware_piece by exact HX. reflexivity.
Qed.

(** ** The cart router, further *)

(** X4. [GET /cart] writes nothing.  When the middleware refuses the
    request the answer is 401.  When it lets the request through with an
    undefined identity the answer is 404; with an ObjectId, the answer is
    200 if a user has it and 404 if none has.  (An identity that cannot be
    cast to an ObjectId makes [findById] throw and is answered 500; the
    tokens of this embedding carry ObjectIds, and that case is not
    covered.) *)
Theorem cart_GET_statuses :
  forall (authorization : option string) (w : World),
    snd (cart_GET authorization w) = w
    /\ (refused (authMiddleware authorization w) ->
        status (fst (cart_GET authorization w)) = 401%Z)
    /\ (authMiddleware authorization w = Next None ->
        fst (cart_GET authorization w)
        = Response 404 (message "User not found"))
    /\ (forall (oid : ObjectId) (user : User.doc),
          authMiddleware authorization w = Next (Some oid) ->
          findById (users w) (Some oid) = Some user ->
          status (fst (cart_GET authorization w)) = 200%Z)
    /\ (forall oid : ObjectId,
          authMiddleware authorization w = Next (Some oid) ->
          findById (users w) (Some oid) = None ->
          fst (cart_GET authorization w)
          = Response 404 (message "User not found")).
Proof.
  intros a w. split; [apply cart_GET_reads|]. split; [|split; [|split]].
  - intros [b Hb]. unfold cart_GET. now rewrite Hb.
  - intros H. now rewrite (cart_GET_authorized _ _ _ H).
  - intros oid user H Hu. rewrite (cart_GET_authorized _ _ _ H).
    now rewrite Hu.
  - intros oid H Hu. rewrite (cart_GET_authorized _ _ _ H).
    now rewrite Hu.
Qed.

Lemma populate_quantity (ps : list Product.doc) (it : LineItem.t) :
  prop "quantity" (populate ps it) = option_map JNum (LineItem.quantity it).
Proof.
  unfold populate, prop, field.
  destruct (LineItem.productId it), (LineItem.quantity it); reflexivity.
Qed.

Lemma populate_productId (ps : list Product.doc) (it : LineItem.t)
    (p : ObjectId) :
  LineItem.productId it = Some p ->
  prop "productId" (populate ps it)
  = Some match find (fun d => N.eqb (Product._id d) p) ps with
         | Some d => Product.toJSON d
         | None => JNull
         end.
Proof. unfold populate, prop, field. now intros ->. Qed.

(** X5. The answer to an authorized [GET /cart] lists the line items of
    the user's cart one for one and in order: each entry keeps the
    quantity of its line item, and carries the product document the item
    refers to, or [null] when the catalogue has no such product; a dangling
    reference does not fail the request. *)
Theorem cart_GET_lists_items :
  forall (authorization : option string) (w : World) (id : option ObjectId)
         (u : User.doc),
    authMiddleware authorization w = Next id ->
    findById (users w) id = Some u ->
    exists entries,
      fst (cart_GET authorization w) = Response 200 (JArr entries)
      /\ List.length entries = List.length (User.cart u)
      /\ forall i it,
           nth_error (User.cart u) i = Some it ->
           exists entry,
             nth_error entries i = Some entry
             /\ prop "quantity" entry
                = option_map JNum (LineItem.quantity it)
             /\ forall p,
                  LineItem.productId it = Some p ->
                  prop "productId" entry
                  = Some match find (fun d => N.eqb (Product._id d) p)
                                 (products w) with
                         | Some d => Product.toJSON d
                         | None => JNull
                         end.
Proof.
  intros a w id u Ha Hu. rewrite (cart_GET_authorized _ _ _ Ha), Hu.
  exists (map (populate (products w)) (User.cart u)). cbn [fst].
  split; [reflexivity|]. split; [apply length_map|].
  intros i it Hi. exists (populate (products w) it).
  split; [now apply map_nth_error|].
  split; [apply populate_quantity|].
  intros p Hp. now apply populate_productId.
Qed.

(** ** Logging in, further *)

(** X6. The login of the server file never succeeds: it writes nothing and
    answers 400, 401 or 500, never 200, since the password of the user it
    finds is not selected and the comparison throws. *)
Theorem api_login_POST_never_succeeds :
  forall (b : Body.t) (w : World),
    snd (api_login_POST b w) = w
    /\ status (fst (api_login_POST b w)) <> 200%Z
    /\ (status (fst (api_login_POST b w)) = 400%Z
        \/ status (fst (api_login_POST b w)) = 401%Z
        \/ status (fst (api_login_POST b w)) = 500%Z).
Proof.
  intros b w. split; [apply api_login_POST_reads|].
  unfold api_login_POST, try_respond, bind, get, ret, lift.
  destruct (JS.falsy (Body.email b) || JS.falsy (Body.password b)).
  - split; [discriminate | now left].
  - destruct (userSchema_findOne_email (users w) (Body.email b)).
    + unfold comparePassword, userSchema_selected_password, bcrypt_compare.
      destruct (Body.password b); (split; [discriminate | now right; right]).
    + split; [discriminate | now right; left].
Qed.

(** X7. app/api/login/route.js checks no field before it uses it: without
    an email in the body no user is found and the answer is 404; with the
    email of a stored user and no password, [bcrypt.compare] throws and the
    answer is 500.  Neither writes anything. *)
Theorem login_POST_missing_fields :
  forall (b : Body.t) (w : World),
    snd (login_POST b w) = w
    /\ (Body.email b = None ->
        fst (login_POST b w) = Response 404 (message "User not found"))
    /\ (forall u,
          findOne_email (users w) (Body.email b) = Some u ->
          Body.password b = None ->
          status (fst (login_POST b w)) = 500%Z).
Proof.
  intros b w. split; [apply login_POST_reads|].
  unfold login_POST, try_respond, bind, get, ret, lift. split.
  - now intros ->.
  - intros u Hu Hp. now rewrite Hu, Hp.
Qed.

(** ** The payment handler, further *)

(** X8. A payment request asks the processor for at most one charge, in
    ["inr"] and for the amount of the body as it came.  The answer is 200
    exactly when the processor returned a charge, and then carries its id;
    when the processor throws, the answer is 500 with the processor's
    message. *)
Theorem payment_POST_outcome :
  forall (parsed : result json),
    (List.length (snd (payment_POST parsed)) <= 1)%nat
    /\ (forall c body,
          In c (snd (payment_POST parsed)) -> parsed = Ok body ->
          Charge.currency c = "inr"
          /\ prop "amount" body = Some (Charge.amount c))
    /\ (status (fst (payment_POST parsed)) = 200%Z <->
        exists c id,
          snd (payment_POST parsed) = [c]
          /\ stripe_charges_create c = Ok id
          /\ body (fst (payment_POST parsed))
             = JObj [("success", JBool true); ("data", JStr id)])
    /\ (forall c e,
          snd (payment_POST parsed) = [c] ->
          stripe_charges_create c = Throw e ->
          fst (payment_POST parsed) = Response 500 (failure "message" e)).
Proof.
  intros parsed.
  assert (Hno : forall r : response,
            status r <> 200%Z ->
            (List.length (snd (r, @nil Charge.request)) <= 1)%nat
            /\ (forall c body,
                  In c (snd (r, @nil Charge.request)) -> parsed = Ok body ->
                  Charge.currency c = "inr"
                  /\ prop "amount" body = Some (Charge.amount c))
            /\ (status (fst (r, @nil Charge.request)) = 200%Z <->
                exists c id,
                  snd (r, @nil Charge.request) = [c]
                  /\ stripe_charges_create c = Ok id
                  /\ body (fst (r, @nil Charge.request))
                     = JObj [("success", JBool true); ("data", JStr id)])
            /\ (forall c e,
                  snd (r, @nil Charge.request) = [c] ->
                  stripe_charges_create c = Throw e ->
                  fst (r, @nil Charge.request)
                  = Response 500 (failure "message" e))).
  { intros r Hr. cbn [fst snd List.length]. split; [lia|].
    split; [intros ? ? []|]. split; [|discriminate].
    split; [intros H; now elim Hr | intros [c [id [H _]]]; discriminate]. }
  destruct parsed as [bd|e]; [|apply Hno; discriminate].
  destruct (json_falsy (prop "token" bd)
            || json_falsy (prop "amount" bd)) eqn:Hf.
  - destruct bd; try (apply Hno; discriminate);
      unfold payment_POST; rewrite Hf; apply Hno; discriminate.
  - apply orb_false_iff in Hf as [Ht Ha].
    destruct (payment_POST_truthy bd Ht Ha)
      as [token [amount [Et [Ea ->]]]].
    cbv zeta.
    destruct (stripe_charges_create
                (Charge.Make amount "inr" (prop "id" token)
                   "Supermarket payment")) as [id|e] eqn:Es;
      cbn [fst snd List.length status body].
    + split; [lia|]. split.
      { intros c b [<-|[]] Hb. injection Hb as <-. now split. }
      split.
      { split; [intros _ | reflexivity].
        eexists. exists id. split; [reflexivity|]. now split. }
      intros c e H Hc. injection H as <-. rewrite Es in Hc. discriminate.
    + split; [lia|]. split.
      { intros c b [<-|[]] Hb. injection Hb as <-. now split. }
      split.
      { split; [discriminate|]. intros [c [id [H [Hc _]]]].
        injection H as <-. rewrite Es in Hc. discriminate. }
      intros c e' H Hc. injection H as <-. rewrite Es in Hc.
      now injection Hc as <-.
Qed.

(** X9. The source of the charge is [token.id]: when the body gives the
    token as a bare string, or as an object without an [id], the charge
    goes to the processor with an undefined source. *)
Theorem payment_POST_source :
  forall (body token : json),
    prop "token" body = Some token ->
    json_falsy (Some token) = false ->
    json_falsy (prop "amount" body) = false ->
    exists c,
      snd (payment_POST (Ok body)) = [c]
      /\ Charge.source c = prop "id" token
      /\ ((forall s, token = JStr s -> Charge.source c = None)
          /\ (forall fields, token = JObj fields ->
                Charge.source c = assoc "id" fields)).
Proof.
  intros body token Et Ht Ha. rewrite <- Et in Ht.
  destruct (payment_POST_truthy body Ht Ha)
    as [token' [amount [Et' [Ea ->]]]].
  rewrite Et in Et'. injection Et' as <-. cbv zeta.
  exists (Charge.Make amount "inr" (prop "id" token) "Supermarket payment").
  split.
  - now destruct (stripe_charges_create _).
  - split; [reflexivity|]. split; intros ? ->; reflexivity.
Qed.

(** ** Registration through register/route.js, further *)

Lemma find_app_none {A : Type} (p : A -> bool) (l l' : list A) :
  find p l = None -> find p (l ++ l')%list = find p l'.
Proof.
  induction l as [|x l IH]; simpl; [reflexivity|].
  destruct (p x); [discriminate | exact IH].
Qed.

Lemma register_accepts_fields (b : Body.t) (w : World) :
  register_accepts b w = true ->
  JS.falsy (Body.name b) || JS.falsy (Body.email b)
  || JS.falsy (Body.password b) = false
  /\ findOne_email (users w) (Body.email b) = None
  /\ id_taken (next_oid w) (users w) = false
  /\ Body.email b = Some (str (Body.email b))
  /\ Body.password b = Some (str (Body.password b)).
Proof.
  unfold register_accepts. intros H.
  apply andb_prop in H as [H Hid]. apply andb_prop in H as [Hf Hfind].
  apply negb_true_iff in Hf, Hid.
  split; [exact Hf|]. split.
  { now destruct (findOne_email (users w) (Body.email b)). }
  split; [exact Hid|].
  apply orb_false_iff in Hf as [Hf Hp]. apply orb_false_iff in Hf as [_ He].
  split; now apply accepted_password.
Qed.

(** The user a registration has just stored is the one its email finds. *)
Lemma register_user_found (b : Body.t) (w : World) (l : list User.doc) :
  register_accepts b w = true ->
  findOne_email (users w ++ [register_user b w] ++ l)%list (Body.email b)
  = Some (register_user b w).
Proof.
  intros E. destruct (register_accepts_fields _ _ E) as [_ [Hn [_ [He _]]]].
  rewrite He in Hn |- *. cbn [findOne_email] in *.
  rewrite (find_app_none _ _ _ Hn). cbn [app find].
  unfold register_user at 1. fields. rewrite He. cbn [str].
  now rewrite String.eqb_refl.
Qed.

(** X10. register/route.js answers 201, 400 or 500.  A 400 leaves the
    world as it was; a 201 means the input was accepted and exactly one
    user, the one built from the body, was appended; a 500 either stored
    nothing or, when [JWT_SECRET] is absent or empty, comes after the user
    was stored. *)
Theorem register_POST_outcomes :
  forall (b : Body.t) (w : World),
    (status (fst (register_POST b w)) = 201%Z
     \/ status (fst (register_POST b w)) = 400%Z
     \/ status (fst (register_POST b w)) = 500%Z)
    /\ (status (fst (register_POST b w)) = 400%Z ->
        snd (register_POST b w) = w)
    /\ (status (fst (register_POST b w)) = 201%Z ->
        register_accepts b w = true
        /\ users (snd (register_POST b w))
           = (users w ++ [register_user b w])%list)
    /\ (status (fst (register_POST b w)) = 500%Z ->
        users (snd (register_POST b w)) = users w
        \/ (JS.falsy (JWT_SECRET w) = true
            /\ users (snd (register_POST b w))
               = (users w ++ [register_user b w])%list)).
Proof.
  intros b w. destruct (register_accepts b w) eqn:E.
  - rewrite (register_POST_accepted _ _ E). unfold register_response.
    destruct (JS.falsy (JWT_SECRET w)); cbn [fst snd status].
    + split; [now right; right|]. split; [discriminate|].
      split; [discriminate|]. intros _. right. now split.
    + split; [now left|]. split; [discriminate|].
      split; [now split | discriminate].
  - revert E. unfold register_accepts, register_POST.
    destruct (JS.falsy (Body.name b) || JS.falsy (Body.email b)
              || JS.falsy (Body.password b)) eqn:Hf.
    { intros _. cbn [fst snd status]. split; [now right; left|].
      split; [reflexivity|]. split; [discriminate | now left]. }
    destruct (findOne_email (users w) (Body.email b)) eqn:Efind.
    { intros _. unfold try_respond, bind, get, ret. rewrite Efind.
      cbn [fst snd status]. split; [now right; left|].
      split; [reflexivity|]. split; [discriminate | now left]. }
    cbn [negb andb]. intros Hid. apply negb_false_iff in Hid.
    unfold bcrypt_hash.
    unfold try_respond, bind, get, ret, bcrypt_genSalt, new_oid, User_save.
    rewrite Efind. cbv beta iota zeta.
    destruct (UserSchema_validate _).
    2:{ cbn [fst snd status throw]. split; [now right; right|].
        split; [discriminate|]. split; [discriminate | now left]. }
    unfold store_user.
    cbn [users set_rng set_next_oid User._id next_oid].
    destruct (email_taken _ _).
    { cbn [fst snd status]. split; [now right; right|].
      split; [discriminate|]. split; [discriminate | now left]. }
    rewrite Hid. cbn [fst snd status]. split; [now right; right|].
    split; [discriminate|]. split; [discriminate | now left].
Qed.

(** X11. Registration is not all or nothing.  When [JWT_SECRET] is absent
    or empty, an accepted registration stores the user and is answered
    500; the same request sent again finds the user and is answered 400
    "User already exists", leaving the world as it is: the client gets no
    token from either. *)
Theorem register_POST_retry :
  forall (b : Body.t) (w : World),
    register_accepts b w = true ->
    JS.falsy (JWT_SECRET w) = true ->
    let w1 := snd (register_POST b w) in
    fst (register_POST b w)
    = Response 500 (message "An error occurred. Please try again later.")
    /\ users w1 = (users w ++ [register_user b w])%list
    /\ register_POST b w1
       = (Response 400 (message "User already exists"), w1).
Proof.
  intros b w E Hs w1. subst w1.
  rewrite (register_POST_accepted _ _ E). unfold register_response.
  rewrite Hs. cbn [fst snd]. split; [reflexivity|]. split; [reflexivity|].
  destruct (register_accepts_fields _ _ E) as [Hf _].
  unfold register_POST. rewrite Hf.
  unfold try_respond, bind, get, ret, after_insert. fields.
  pose proof (register_user_found b w [] E) as Hfound.
  cbn [app] in Hfound. now rewrite Hfound.
Qed.

(** ** What runs keep true of the user collection *)

(** A request leaves the users as they are or appends the one user a
    registration handler has built. *)
Lemma handle_inserts (r : request) (w : World) :
  users (snd (handle r w)) = users w
  \/ (exists b, r = POST_register b /\ register_accepts b w = true
                /\ users (snd (handle r w))
                   = (users w ++ [register_user b w])%list)
  \/ (exists b, r = POST_api_register b /\ api_register_accepts b w = true
                /\ users (snd (handle r w))
                   = (users w ++ [api_register_user b w])%list).
Proof.
  destruct r as [b|b|a|b|b]; cbn [handle].
  - destruct (register_accepts b w) eqn:E.
    + right; left. exists b. rewrite (register_POST_accepted _ _ E).
      now repeat split.
    + left. now destruct (register_POST_refused _ _ E) as [_ [-> _]].
  - left. now rewrite login_POST_reads.
  - left. now rewrite cart_GET_reads.
  - destruct (api_register_accepts b w) eqn:E.
    + right; right. exists b. rewrite (api_register_POST_accepted _ _ E).
      now repeat split.
    + left. now destruct (api_register_POST_refused _ _ E) as [_ [-> _]].
  - left. now rewrite api_login_POST_reads.
Qed.

Lemma api_register_accepts_fields (b : Body.t) (w : World) :
  api_register_accepts b w = true ->
  userSchema_findOne_email (users w) (Body.email b) = None
  /\ id_taken (next_oid w) (users w) = false
  /\ userSchema_validate (api_register_draft b w) = true
  /\ Body.email b = Some (str (Body.email b))
  /\ Body.password b = Some (str (Body.password b)).
Proof.
  unfold api_register_accepts. intros H.
  apply andb_prop in H as [H Hid]. apply andb_prop in H as [H Hval].
  apply andb_prop in H as [H Hfind]. apply andb_prop in H as [H _].
  apply andb_prop in H as [H _]. apply andb_prop in H as [Hf _].
  apply negb_true_iff in Hf, Hid.
  split.
  { now destruct (userSchema_findOne_email (users w) (Body.email b)). }
  split; [exact Hid|]. split; [exact Hval|].
  apply orb_false_iff in Hf as [Hf Hp]. apply orb_false_iff in Hf as [_ He].
  split; now apply accepted_password.
Qed.

Lemma find_email_none_not_in (e : string) (us : list User.doc) :
  find (fun u => String.eqb (User.email u) e) us = None ->
  ~ In e (map User.email us).
Proof.
  induction us as [|u us IH]; simpl; [tauto|].
  destruct (String.eqb_spec (User.email u) e) as [|Hne]; [discriminate|].
  intros H [Heq|Hin]; [now elim Hne | now apply IH].
Qed.

Lemma id_not_taken_not_in (i : ObjectId) (us : list User.doc) :
  id_taken i us = false -> ~ In i (map User._id us).
Proof.
  unfold id_taken. induction us as [|u us IH]; simpl; [tauto|].
  destruct (N.eqb_spec (User._id u) i) as [|Hne]; [discriminate|].
  intros H [Heq|Hin]; [now elim Hne | now apply IH].
Qed.

Lemma NoDup_snoc {A : Type} (l : list A) (x : A) :
  NoDup l -> ~ In x l -> NoDup (l ++ [x])%list.
Proof.
  intros Hl Hx. induction Hl as [|y l Hy Hl IH]; simpl.
  - constructor; [tauto | constructor].
  - constructor.
    + intros Hin. apply in_app_or in Hin as [Hin|[<-|[]]]; [tauto|].
      apply Hx. now left.
    + apply IH. intros Hin. apply Hx. now right.
Qed.

Lemma distinct_users_snoc (us : list User.doc) (u : User.doc) :
  distinct_users us ->
  find (fun v => String.eqb (User.email v) (User.email u)) us = None ->
  id_taken (User._id u) us = false ->
  distinct_users (us ++ [u])%list.
Proof.
  intros [He Hi] Hfind Hid. unfold distinct_users. rewrite !map_app.
  split; apply NoDup_snoc; trivial.
  - now apply find_email_none_not_in.
  - now apply id_not_taken_not_in.
Qed.

(** X12. Whatever requests are handled, in whatever order and through
    either registration handler, the stored users keep pairwise distinct
    emails and pairwise distinct [_id]s. *)
Theorem run_keeps_users_distinct :
  forall (es : list event) (w : World),
    distinct_users (users w) -> distinct_users (users (run es w)).
Proof.
  induction es as [|e es IH]; intros w H; cbn [run fold_left]; [exact H|].
  apply IH. destruct e as [r|t]; cbn [step]; [|exact H].
  destruct (handle_inserts r w) as [->|[[b [_ [E ->]]]|[b [_ [E ->]]]]].
  - exact H.
  - destruct (register_accepts_fields _ _ E) as [_ [Hn [Hid [He _]]]].
    apply distinct_users_snoc; trivial.
    unfold register_user; fields. rewrite He in Hn. exact Hn.
  - destruct (api_register_accepts_fields _ _ E) as [Hn [Hid [_ [He _]]]].
    apply distinct_users_snoc; trivial.
    unfold api_register_user, api_register_draft, User.with_password,
      userSchema_new; fields.
    rewrite He in Hn. exact Hn.
Qed.

Lemma bcrypt_hash_salt_shaped (p : string) (w : World) :
  (forall salt s, String.length (eksblowfish salt s) = 31%nat) ->
  bcrypt_shaped (bcrypt_hash_salt p (salt_of w)).
Proof.
  intros Hlen. unfold bcrypt_shaped, bcrypt_hash_salt. split.
  - now rewrite string_app_length, salt_of_length, Hlen.
  - reflexivity.
Qed.

(** X13. Provided the digest is 31 characters long, no handler ever stores
    a password that is not a bcrypt hash: if every stored password is sixty
    characters starting with ["$2a$10$"], this is still so after any run of
    requests. *)
Theorem run_keeps_passwords_hashed :
  (forall salt s, String.length (eksblowfish salt s) = 31%nat) ->
  forall (es : list event) (w : World),
    (forall u, In u (users w) -> bcrypt_shaped (User.password u)) ->
    forall u, In u (users (run es w)) -> bcrypt_shaped (User.password u).
Proof.
  intros Hlen. induction es as [|e es IH]; intros w H; cbn [run fold_left];
    [exact H|].
  apply IH. destruct e as [r|t]; cbn [step]; [|exact H].
  destruct (handle_inserts r w) as [->|[[b [_ [_ ->]]]|[b [_ [_ ->]]]]].
  - exact H.
  - intros u Hin. apply in_app_or in Hin as [Hin|[<-|[]]]; [now apply H|].
    unfold register_user; fields. now apply bcrypt_hash_salt_shaped.
  - intros u Hin. apply in_app_or in Hin as [Hin|[<-|[]]]; [now apply H|].
    unfold api_register_user, User.with_password; fields.
    now apply bcrypt_hash_salt_shaped.
Qed.

(** ** From registration to the cart *)

Lemma id_not_taken_find (i : ObjectId) (us : list User.doc) :
  id_taken i us = false -> find (fun u => N.eqb (User._id u) i) us = None.
Proof.
  unfold id_taken. induction us as [|u us IH]; simpl; [reflexivity|].
  destruct (N.eqb (User._id u) i); [discriminate | exact IH].
Qed.

(** X14. Register, log in, fetch the cart.  Provided the digest is 31
    characters long and [JWT_SECRET] is set, after an accepted registration
    through register/route.js a login with the same body is answered 200
    with a token that carries the new user's [_id] under [id]; presented
    within a day, in any later state that still has the users stored so
    far, that token makes [GET /cart] answer 200 with the empty cart of the
    new user. *)
Theorem register_login_cart :
  (forall salt s, String.length (eksblowfish salt s) = 31%nat) ->
  forall (b : Body.t) (w : World),
    register_accepts b w = true ->
    JS.falsy (JWT_SECRET w) = false ->
    let w1 := snd (register_POST b w) in
    let token := signed [("id", next_oid w)] (str (JWT_SECRET w))
                   Jwt.one_day (now w) in
    login_POST b w1 = (Response 200 (JObj [("token", JStr token)]), w1)
    /\ forall w2 l,
         JS.mem " " token = false ->
         JWT_SECRET w2 = JWT_SECRET w ->
         users w2 = (users w1 ++ l)%list ->
         (now w2 < now w + Jwt.one_day)%Z ->
         cart_GET (Some ("Bearer " ++ token)) w2
         = (Response 200 (JArr []), w2).
Proof.
  intros Hlen b w E Hs w1 token. subst w1 token.
  rewrite (register_POST_accepted _ _ E). cbn [snd].
  destruct (register_accepts_fields _ _ E) as [_ [_ [Hid [_ Hp]]]].
  split.
  - unfold login_POST, try_respond, bind, get, ret, lift.
    unfold after_insert at 1. fields.
    pose proof (register_user_found b w [] E) as Hfound.
    cbn [app] in Hfound. rewrite Hfound.
    unfold register_user at 1. fields. rewrite Hp at 1.
    rewrite (bcrypt_compare_hashed _ _ Hlen). cbn [negb].
    unfold jwt_sign, after_insert. fields. rewrite Hs. reflexivity.
  - intros w2 l Hsp Hw2 Hus Ht. rewrite <- Hw2 in Hsp, Hs |- *.
    pose proof (authMiddleware_signed [("id", next_oid w)] Jwt.one_day
                  (now w) w2 Hs Hsp) as Ha.
    destruct (Z.leb_spec (now w + Jwt.one_day) (now w2)); [lia|].
    rewrite (cart_GET_authorized _ _ _ Ha), Hus.
    cbn [assoc String.eqb Ascii.eqb Bool.eqb findById].
    unfold after_insert. fields.
    rewrite <- app_assoc, (find_app_none _ _ _ (id_not_taken_find _ _ Hid)).
    cbn [app find]. unfold register_user at 1. fields.
    now rewrite N.eqb_refl.
Qed.

(** ** Looking a user up *)

(** X15. [GET /api/user/:email] writes nothing and answers 404 when no
    user has the email, compared after trimming and lower-casing.  After an
    accepted registration through the server file, the same email in any
    letter case is answered 200 with the stored name, email, city and phone
    number, and with nothing else of the user. *)
Theorem api_user_GET_profile :
  forall (email : string) (w : World),
    snd (api_user_GET email w) = w
    /\ (userSchema_findOne_email (users w) (Some email) = None ->
        fst (api_user_GET email w)
        = Response 404 (failure "error" "User not found"))
    /\ (forall b,
          api_register_accepts b w = true ->
          JS.toLowerCase (JS.trim email)
          = JS.toLowerCase (JS.trim (str (Body.email b))) ->
          fst (api_user_GET email (snd (api_register_POST b w)))
          = Response 200
              (JObj [("success", JBool true);
                     ("data",
                      JObj [("name", JStr (JS.trim (str (Body.name b))));
                            ("email",
                             JStr (JS.toLowerCase
                                     (JS.trim (str (Body.email b)))));
                            ("city",
                             JStr (JS.trim (str (Body.city b))));
                            ("phoneNumber",
                             JStr (JS.trim (str (Body.phoneNumber b))))])])).
Proof.
  intros email w. unfold api_user_GET, try_respond, bind, get, ret.
  split; [|split].
  - now destruct (userSchema_findOne_email (users w) (Some email)).
  - now intros ->.
  - intros b E Hmail. rewrite (api_register_POST_accepted _ _ E).
    unfold after_insert. fields.
    destruct (api_register_accepts_fields _ _ E) as [Hn [_ [_ [He _]]]].
    unfold userSchema_findOne_email in *. rewrite He in Hn.
    cbn [option_map findOne_email] in *. rewrite Hmail.
    rewrite (find_app_none _ _ _ Hn). cbn [find].
    unfold api_register_user, api_register_draft, User.with_password,
      userSchema_new. fields.
    now rewrite String.eqb_refl.
Qed.

(** ** The checks of the server file and the validators of its schema *)

Lemma split_one (sep : ascii) (s d : string) :
  JS.split sep s = [d] -> s = d.
Proof.
  revert d. induction s as [|c r IH]; intros d; simpl.
  - intros H. now injection H.
  - destruct (Ascii.eqb c sep).
    + intros H. injection H as _ H. now elim (split_not_nil sep r).
    + destruct (JS.split sep r) as [|h t] eqn:E; intros H.
      * now elim (split_not_nil sep r).
      * injection H as <- ->. now rewrite (IH h eq_refl).
Qed.

Lemma split_two (sep : ascii) (s a d : string) :
  JS.split sep s = [a; d] -> s = a ++ String sep d.
Proof.
  revert a. induction s as [|c r IH]; intros a; simpl; [discriminate|].
  destruct (Ascii.eqb_spec c sep) as [->|Hne].
  - intros H. injection H as <- H. now rewrite (split_one _ _ _ H).
  - destruct (JS.split sep r) as [|h t] eqn:E; [discriminate|].
    intros H. injection H as <- ->. now rewrite (IH h eq_refl).
Qed.

Lemma forallb_app (p : ascii -> bool) (a b : string) :
  JS.forallb p (a ++ b) = JS.forallb p a && JS.forallb p b.
Proof.
  induction a as [|c a IH]; simpl; [reflexivity|].
  now rewrite IH, andb_assoc.
Qed.

Lemma forallb_rev_onto (p : ascii -> bool) (s acc : string) :
  JS.forallb p (JS.rev_onto s acc) = JS.forallb p s && JS.forallb p acc.
Proof.
  revert acc. induction s as [|c s IH]; intros acc; simpl; [reflexivity|].
  rewrite IH. simpl. now destruct (p c), (JS.forallb p s).
Qed.

Lemma rev_onto_rev_onto (s acc acc' : string) :
  JS.rev_onto (JS.rev_onto s acc) acc' = JS.rev_onto acc (s ++ acc').
Proof.
  revert acc acc'. induction s as [|c s IH]; intros acc acc'; simpl;
    [reflexivity|].
  now rewrite IH.
Qed.

Lemma string_app_empty (s : string) : s ++ "" = s.
Proof. induction s as [|c s IH]; simpl; [reflexivity | now rewrite IH]. Qed.

Lemma rev_rev (s : string) : JS.rev (JS.rev s) = s.
Proof.
  unfold JS.rev. rewrite rev_onto_rev_onto. simpl. apply string_app_empty.
Qed.

Lemma dropWhile_none (p : ascii -> bool) (s : string) :
  JS.forallb (fun c => negb (p c)) s = true -> JS.dropWhile p s = s.
Proof.
  destruct s as [|c s]; simpl; [reflexivity|].
  now destruct (p c).
Qed.

(** A string without white space is its own trim. *)
Lemma trim_without_space (s : string) :
  JS.forallb (fun c => negb (JS.isSpace c)) s = true -> JS.trim s = s.
Proof.
  intros H. unfold JS.trim. rewrite (dropWhile_none _ _ H).
  rewrite dropWhile_none; [apply rev_rev|].
  unfold JS.rev. now rewrite forallb_rev_onto, H.
Qed.

Lemma forallb_weaken (p q : ascii -> bool) (s : string) :
  (forall c, p c = true -> q c = true) ->
  JS.forallb p s = true -> JS.forallb q s = true.
Proof.
  intros Hpq. induction s as [|c s IH]; simpl; [reflexivity|].
  intros H. apply andb_prop in H as [Hc Hs].
  now rewrite (Hpq c Hc), (IH Hs).
Qed.

Lemma lowerChar_space (c : ascii) :
  JS.isSpace (JS.lowerChar c) = JS.isSpace c.
Proof. destruct c as [[] [] [] [] [] [] [] []]; reflexivity. Qed.

Lemma lowerChar_at (c : ascii) :
  Ascii.eqb (JS.lowerChar c) "@" = Ascii.eqb c "@".
Proof. destruct c as [[] [] [] [] [] [] [] []]; reflexivity. Qed.

Lemma lowerChar_dot (c : ascii) :
  Ascii.eqb (JS.lowerChar c) "." = Ascii.eqb c ".".
Proof. destruct c as [[] [] [] [] [] [] [] []]; reflexivity. Qed.

Lemma toLowerCase_app (a b : string) :
  JS.toLowerCase (a ++ b) = JS.toLowerCase a ++ JS.toLowerCase b.
Proof. induction a as [|c a IH]; simpl; [reflexivity | now rewrite IH]. Qed.

Lemma toLowerCase_no_space (s : string) :
  JS.forallb (fun c => negb (JS.isSpace c)) (JS.toLowerCase s)
  = JS.forallb (fun c => negb (JS.isSpace c)) s.
Proof.
  induction s as [|c s IH]; simpl; [reflexivity|].
  now rewrite IH, lowerChar_space.
Qed.

Lemma dot_not_last_lower (s : string) :
  dot_not_last (JS.toLowerCase s) = dot_not_last s.
Proof.
  induction s as [|c s IH]; [reflexivity|].
  destruct s as [|c' s']; [reflexivity|].
  change (dot_not_last (JS.toLowerCase (String c (String c' s'))))
    with (Ascii.eqb (JS.lowerChar c) "."
          || dot_not_last (JS.toLowerCase (String c' s'))).
  rewrite IH, lowerChar_dot. reflexivity.
Qed.

Lemma at_then_dot_app (a u : string) (x : ascii) :
  dot_not_last u = true ->
  at_then_dot (a ++ String "@" (String x u)) = true.
Proof.
  intros Hu. induction a as [|c a IH]; simpl.
  - now rewrite Hu.
  - rewrite IH. apply orb_true_r.
Qed.

Lemma digit_not_space (c : ascii) :
  JS.isDigit c = true -> negb (JS.isSpace c) = true.
Proof. destruct c as [[] [] [] [] [] [] [] []]; simpl; auto. Qed.

(** An email the handler's expression accepts is accepted by the schema's
    once trimmed and lower-cased. *)
Lemma emailRegex_schemaEmailRegex (e : string) :
  emailRegex e = true ->
  schemaEmailRegex (JS.toLowerCase (JS.trim e)) = true.
Proof.
  unfold emailRegex.
  destruct (JS.split "@" e) as [|a [|d [|x l]]] eqn:E; try discriminate.
  apply split_two in E. intros H.
  apply andb_prop in H as [H Hdot]. apply andb_prop in H as [H Hd].
  apply andb_prop in H as [Ha0 Ha]. apply negb_true_iff in Ha0.
  assert (Hns : forall c, not_space_or_at c = true ->
                          negb (JS.isSpace c) = true).
  { intros c Hc. unfold not_space_or_at in Hc. now apply andb_prop in Hc. }
  assert (Hsp : JS.forallb (fun c => negb (JS.isSpace c)) e = true).
  { rewrite E, forallb_app. simpl.
    now rewrite (forallb_weaken _ _ _ Hns Ha), (forallb_weaken _ _ _ Hns Hd). }
  rewrite (trim_without_space _ Hsp). unfold schemaEmailRegex.
  rewrite toLowerCase_no_space, Hsp. cbn [andb].
  rewrite E, toLowerCase_app.
  destruct a as [|a0 a']; [discriminate|].
  destruct d as [|x u]; [discriminate|].
  cbn [JS.toLowerCase append].
  change (JS.lowerChar "@") with "@"%char.
  apply at_then_dot_app. now rewrite dot_not_last_lower.
Qed.

Lemma phoneRegex_trim (p : string) :
  phoneRegex p = true -> JS.trim p = p.
Proof.
  unfold phoneRegex. intros H. apply andb_prop in H as [_ H].
  apply trim_without_space.
  exact (forallb_weaken _ _ _ digit_not_space H).
Qed.

(** X16. Once the handler's own checks of email, phone number and password
    have passed, the validators of [userSchema] add only two conditions:
    the trimmed name and the trimmed city must have at least two
    characters.  The schema's email expression, phone expression and
    password length never fail after the handler's. *)
Theorem userSchema_validate_after_checks :
  forall (b : Body.t) (w : World),
    emailRegex (str (Body.email b)) = true ->
    phoneRegex (str (Body.phoneNumber b)) = true ->
    (String.length (str (Body.password b)) <? 6)%nat = false ->
    userSchema_validate (api_register_draft b w)
    = (2 <=? String.length (JS.trim (str (Body.name b))))%nat
      && (2 <=? String.length (JS.trim (str (Body.city b))))%nat.
Proof.
  intros b w He Hp Hl.
  unfold userSchema_validate, api_register_draft, userSchema_new. fields.
  rewrite (emailRegex_schemaEmailRegex _ He).
  rewrite (phoneRegex_trim _ Hp), Hp.
  assert (H6 : (6 <=? String.length (str (Body.password b)))%nat = true).
  { apply Nat.ltb_ge in Hl. now apply Nat.leb_le. }
  rewrite H6. now rewrite !andb_true_r.
Qed.

(** X17. A name or a city that is a single character once trimmed passes
    the handler's checks and fails the schema's: the registration is
    answered 500 "Registration failed", as a server error, and no user is
    stored. *)
Theorem api_register_POST_short_name :
  forall (b : Body.t) (w : World),
    JS.falsy (Body.name b) || JS.falsy (Body.phoneNumber b)
    || JS.falsy (Body.city b) || JS.falsy (Body.email b)
    || JS.falsy (Body.password b) = false ->
    emailRegex (str (Body.email b)) = true ->
    phoneRegex (str (Body.phoneNumber b)) = true ->
    (String.length (str (Body.password b)) <? 6)%nat = false ->
    userSchema_findOne_email (users w) (Body.email b) = None ->
    (String.length (JS.trim (str (Body.name b))) < 2
     \/ String.length (JS.trim (str (Body.city b))) < 2)%nat ->
    fst (api_register_POST b w)
    = Response 500
        (failure "error" "Registration failed. Please try again later.")
    /\ users (snd (api_register_POST b w)) = users w.
Proof.
  intros b w Hf He Hp Hl Hn Hshort.
  assert (Hv : userSchema_validate (api_register_draft b w) = false).
  { unfold userSchema_validate, api_register_draft, userSchema_new. fields.
    destruct Hshort as [H|H]; apply Nat.leb_gt in H; rewrite H;
      [reflexivity|].
    now rewrite andb_false_r. }
  unfold api_register_POST, try_respond, bind, get, ret, new_oid,
    userSchema_save.
  rewrite Hf, He, Hp, Hl. cbn [negb]. cbv beta. rewrite Hn.
  cbv beta iota zeta. fields.
  unfold api_register_draft in Hv. rewrite Hv. now split.
Qed.

(** X18. The registration of the server file never answers 201, since
    [jwt] is not defined where it signs: it answers 400 or 500.  A 400
    leaves the world as it was.  A user is stored exactly when the input is
    accepted: the user built from the input is appended, and the request
    is answered 500 "Registration failed"; otherwise the users are as they
    were. *)
Theorem api_register_POST_outcomes :
  forall (b : Body.t) (w : World),
    status (fst (api_register_POST b w)) <> 201%Z
    /\ (status (fst (api_register_POST b w)) = 400%Z
        \/ status (fst (api_register_POST b w)) = 500%Z)
    /\ (status (fst (api_register_POST b w)) = 400%Z ->
        snd (api_register_POST b w) = w)
    /\ (api_register_accepts b w = true <->
        users (snd (api_register_POST b w))
        = (users w ++ [api_register_user b w])%list)
    /\ (api_register_accepts b w = true ->
        fst (api_register_POST b w)
        = Response 500
            (failure "error" "Registration failed. Please try again later."))
    /\ (api_register_accepts b w = false ->
        users (snd (api_register_POST b w)) = users w).
Proof.
  intros b w.
  assert (Hnil : users w <> (users w ++ [api_register_user b w])%list).
  { intros H. apply (f_equal (@List.length _)) in H.
    rewrite length_app in H. cbn [List.length] in H. lia. }
  destruct (api_register_accepts b w) eqn:E.
  - rewrite (api_register_POST_accepted _ _ E).
    cbn [fst snd]. unfold api_register_failure, after_insert. fields.
    split; [discriminate|]. split; [now right|]. split; [discriminate|].
    split; [now split|]. split; [reflexivity | discriminate].
  - assert (Hcases : (status (fst (api_register_POST b w)) = 400%Z
                      /\ snd (api_register_POST b w) = w)
                     \/ (status (fst (api_register_POST b w)) = 500%Z
                         /\ users (snd (api_register_POST b w)) = users w)).
    { revert E.
      unfold api_register_accepts, api_register_POST, try_respond,
        api_register_draft.
      destruct (JS.falsy (Body.name b) || JS.falsy (Body.phoneNumber b)
                || JS.falsy (Body.city b) || JS.falsy (Body.email b)
                || JS.falsy (Body.password b));
        [intros _; left; now split|].
      destruct (emailRegex _); [|intros _; left; now split].
      destruct (phoneRegex _); [|intros _; left; now split].
      destruct (_ <? 6)%nat; [intros _; left; now split|].
      cbn [negb andb]. unfold bind, get, ret, new_oid, userSchema_save.
      destruct (userSchema_findOne_email (users w) (Body.email b));
        [intros _; left; now split|].
      cbv beta iota zeta. fields.
      destruct (userSchema_validate _); [|intros _; right; now split].
      cbn [andb]. intros Hid. apply negb_false_iff in Hid.
      unfold bind, bcrypt_genSalt, ret, store_user. cbv beta iota zeta.
      unfold User.with_password, userSchema_new. fields.
      destruct (email_taken _ _); [right; now split|].
      rewrite Hid. right. now split. }
    destruct Hcases as [[Hst Hw]|[Hst Hu]]; rewrite Hst.
    + split; [discriminate|]. split; [now left|].
      split; [intros _; exact Hw|]. rewrite Hw.
      split; [split; [discriminate | intros H; now elim Hnil]|].
      split; [discriminate | reflexivity].
    + split; [discriminate|]. split; [now right|].
      split; [discriminate|]. rewrite Hu.
      split; [split; [discriminate | intros H; now elim Hnil]|].
      split; [discriminate | reflexivity].
Qed.

(** ** Tokens signed under another secret *)

(** X19. A token signed under a key whose signature of the claims differs
    from the one the server's secret gives is refused with 401 "Token is
    not valid", whatever it claims and however long it has to live; so is
    every token when the server has no secret. *)
Theorem authMiddleware_other_secret :
  forall (payload : list (string * ObjectId)) (key : string) (ttl t0 : Z)
         (w : World),
    hs256 key (Jwt.encode (Jwt.Claims payload t0 (t0 + ttl)))
    <> hs256 (str (JWT_SECRET w))
         (Jwt.encode (Jwt.Claims payload t0 (t0 + ttl))) ->
    JS.mem " " (signed payload key ttl t0) = false ->
    authMiddleware (Some ("Bearer " ++ signed payload key ttl t0)) w
    = bad_token.
Proof.
  intros payload key ttl t0 w Hsig Hsp.
  change ("Bearer " ++ signed payload key ttl t0)
    with ("Bearer" ++ String " " (signed payload key ttl t0)).
  rewrite authMiddleware_piece by reflexivity.
  rewrite (split_without _ _ Hsp).
  assert (Hne : String.eqb (signed payload key ttl t0) "" = false)
    by (apply String.eqb_neq, signed_not_empty).
  rewrite Hne. unfold signed, jwt_verify. rewrite claims_ok.
  destruct (JS.falsy (JWT_SECRET w)); [reflexivity|].
  apply String.eqb_neq in Hsig. now rewrite Hsig.
Qed.

(** ** How the two registration handlers compare emails *)

(** X20. The server file holds emails unique up to letter case and
    surrounding space: after an accepted registration, a registration whose
    email trims and lower-cases to the same string is answered 400 and
    leaves the world as it was. *)
Theorem api_register_POST_case_insensitive :
  forall (b1 b2 : Body.t) (w : World) (e2 : string),
    api_register_accepts b1 w = true ->
    Body.email b2 = Some e2 ->
    JS.toLowerCase (JS.trim e2)
    = JS.toLowerCase (JS.trim (str (Body.email b1))) ->
    let w1 := snd (api_register_POST b1 w) in
    status (fst (api_register_POST b2 w1)) = 400%Z
    /\ snd (api_register_POST b2 w1) = w1.
Proof.
  intros b1 b2 w e2 E He2 Hsame w1. subst w1.
  rewrite (api_register_POST_accepted _ _ E). cbn [snd].
  apply (api_register_POST_known _ _ (api_register_user b1 w)).
  rewrite He2. unfold userSchema_findOne_email, after_insert. fields.
  cbn [option_map findOne_email]. rewrite Hsame.
  destruct (api_register_accepts_fields _ _ E) as [Hn [_ [_ [He _]]]].
  unfold userSchema_findOne_email in Hn. rewrite He in Hn.
  cbn [option_map findOne_email] in Hn.
  rewrite (find_app_none _ _ _ Hn). cbn [find].
  unfold api_register_user, api_register_draft, User.with_password,
    userSchema_new. fields.
  now rewrite String.eqb_refl.
Qed.

(** X21. register/route.js compares emails as they are written: after an
    accepted registration, a complete body whose email is another string
    that no stored user has, be it the same address in another letter
    case, is accepted in turn (the [_id] it draws being new), and the
    store then holds both users. *)
Theorem register_POST_case_sensitive :
  forall (b1 b2 : Body.t) (w : World),
    register_accepts b1 w = true ->
    JS.falsy (Body.name b2) || JS.falsy (Body.email b2)
    || JS.falsy (Body.password b2) = false ->
    Body.email b2 <> Body.email b1 ->
    findOne_email (users w) (Body.email b2) = None ->
    id_taken (N.succ (next_oid w)) (users w) = false ->
    let w1 := snd (register_POST b1 w) in
    register_accepts b2 w1 = true
    /\ users (snd (register_POST b2 w1))
       = (users w ++ [register_user b1 w; register_user b2 w1])%list.
Proof.
  intros b1 b2 w E Hf Hne Hn Hid w1. subst w1.
  rewrite (register_POST_accepted _ _ E). cbn [snd].
  destruct (register_accepts_fields _ _ E) as [_ [_ [_ [He1 _]]]].
  assert (He2 : Body.email b2 = Some (str (Body.email b2))).
  { apply orb_false_iff in Hf as [Hf _]. apply orb_false_iff in Hf as [_ Hf].
    now apply accepted_password. }
  assert (E2 : register_accepts b2 (after_insert (register_user b1 w) w)
               = true).
  { unfold register_accepts. rewrite Hf. cbn [negb andb].
    unfold after_insert at 1 2 3. fields.
    rewrite He2 in Hn |- *. cbn [findOne_email] in *.
    rewrite (find_app_none _ _ _ Hn). cbn [find].
    unfold register_user at 1. fields.
    destruct (String.eqb_spec (str (Body.email b1)) (str (Body.email b2)))
      as [Heq|_].
    { elim Hne. now rewrite He1, He2, Heq. }
    unfold id_taken in *. rewrite existsb_app, Hid. cbn [existsb orb].
    unfold register_user. fields.
    destruct (N.eqb_spec (next_oid w) (N.succ (next_oid w))) as [H|_];
      [lia | reflexivity]. }
  split; [exact E2|].
  rewrite (register_POST_accepted _ _ E2). cbn [snd].
  unfold after_insert. fields. now rewrite <- app_assoc.
Qed.

(** ** The password a registration stores *)

(** X23. Provided the digest is 31 characters long, the password that an
    accepted registration stores, through either handler, has the form of
    a bcrypt hash, differs from the plaintext unless the plaintext is
    sixty characters long, and verifies the plaintext: through
    [bcrypt.compare] for register/route.js and through [comparePassword]
    on the saved document for the server file. *)
Theorem registered_password_verifies :
  (forall salt p, String.length (eksblowfish salt p) = 31%nat) ->
  forall (b : Body.t) (w : World),
    (register_accepts b w = true ->
     exists u,
       users (snd (register_POST b w)) = (users w ++ [u])%list
       /\ bcrypt_shaped (User.password u)
       /\ (String.length (str (Body.password b)) <> 60%nat ->
           User.password u <> str (Body.password b))
       /\ bcrypt_compare (Body.password b) (Some (User.password u))
          = Ok true)
    /\
    (api_register_accepts b w = true ->
     exists u,
       users (snd (api_register_POST b w)) = (users w ++ [u])%list
       /\ bcrypt_shaped (User.password u)
       /\ (String.length (str (Body.password b)) <> 60%nat ->
           User.password u <> str (Body.password b))
       /\ comparePassword (Some (User.password u)) (Body.password b)
          = Ok true).
Proof.
  intros Hlen b w.
  assert (Hne : forall p : string,
            String.length p <> 60%nat ->
            bcrypt_hash_salt p (salt_of w) <> p).
  { intros p Hp E. apply Hp. rewrite <- E at 1.
    exact (proj1 (bcrypt_hash_salt_shaped p w Hlen)). }
  split; intros E.
  - rewrite (register_POST_accepted _ _ E).
    exists (register_user b w). unfold register_user, after_insert. fields.
    split; [reflexivity|].
    split; [now apply bcrypt_hash_salt_shaped|].
    split; [apply Hne|].
    unfold register_accepts in E.
    apply andb_prop in E as [E _]. apply andb_prop in E as [E _].
    apply negb_true_iff, orb_false_iff in E as [_ E].
    rewrite (accepted_password _ E) at 1.
    now apply bcrypt_compare_hashed.
  - rewrite (api_register_POST_accepted _ _ E).
    exists (api_register_user b w).
    unfold api_register_user, api_register_draft, User.with_password,
      userSchema_new, after_insert. fields.
    split; [reflexivity|].
    split; [now apply bcrypt_hash_salt_shaped|].
    split; [apply Hne|].
    unfold api_register_accepts in E.
    repeat (apply andb_prop in E as [E _]).
    apply negb_true_iff, orb_false_iff in E as [_ E].
    unfold comparePassword.
    rewrite (accepted_password _ E) at 1.
    now apply bcrypt_compare_hashed.
Qed.

End Backend.

(** * The properties at work *)

(** ** The stand-in digest has the length of a bcrypt digest *)

Lemma demo_pad_length (n : nat) (s : string) :
  String.length (Demo.pad n s) = n.
Proof.
  revert s. induction n as [|n IH]; intros s; simpl; [reflexivity|].
  destruct s; simpl; now rewrite IH.
Qed.

Lemma demo_digest_length (salt p : string) :
  String.length (Demo.eksblowfish salt p) = 31%nat.
Proof.
  unfold Demo.eksblowfish.
  rewrite string_app_length, demo_pad_length. reflexivity.
Qed.

(** ** C1 at work: Alice's request in the shop *)

Lemma cart_GET_isolated_witness :
  let authorization :=
    Some ("Bearer " ++ signed Demo.hs256 [("id", 1%N)] "s3cret" Jwt.one_day
                         1000%Z) in
  authMiddleware Demo.hs256 authorization Demo.shop = Next (Some 1%N)
  /\ snd (cart_GET Demo.hs256 authorization Demo.shop) = Demo.shop
  /\ fst (cart_GET Demo.hs256 authorization Demo.shop)
     = Response 200
         (JArr [JObj [("productId", Product.toJSON Demo.rice);
                      ("quantity", JNum (Fin 2))]])
  /\ cart_GET Demo.hs256 authorization (set_cart 2%N [] Demo.shop)
     = (fst (cart_GET Demo.hs256 authorization Demo.shop),
        set_cart 2%N [] Demo.shop).
Proof.
  intros authorization.
  assert (H : authMiddleware Demo.hs256 authorization Demo.shop
              = Next (Some 1%N)) by reflexivity.
  destruct (cart_GET_isolated Demo.hs256 Demo.shop authorization 1%N H)
    as [Hw [Hcart Hother]].
  split; [exact H|]. split; [exact Hw|]. split.
  - exact (Hcart Demo.alice eq_refl).
  - apply Hother. discriminate.
Defined.

(** ** C2 at work: the token Ann gets when she registers *)

Lemma register_token_identity_lost_witness :
  let token :=
    signed Demo.hs256 [("userId", 1%N)] "s3cret" Jwt.one_hour 1000%Z in
  let w1 := snd (register_POST Demo.hs256 Demo.eksblowfish Demo.ann
                   Demo.world) in
  fst (register_POST Demo.hs256 Demo.eksblowfish Demo.ann Demo.world)
  = Response 201 (JObj [("success", JBool true); ("token", JStr token)])
  /\ JS.mem " " token = false
  /\ findById (users w1) (Some 1%N) <> None
  /\ authMiddleware Demo.hs256 (Some ("Bearer " ++ token)) w1 = Next None
  /\ cart_GET Demo.hs256 (Some ("Bearer " ++ token)) w1
     = (Response 404 (message "User not found"), w1).
Proof.
  intros token w1.
  assert (H : fst (register_POST Demo.hs256 Demo.eksblowfish Demo.ann
                     Demo.world)
              = Response 201
                  (JObj [("success", JBool true); ("token", JStr token)]))
    by reflexivity.
  assert (Hsp : JS.mem " " token = false) by reflexivity.
  destruct (register_token_identity_lost Demo.hs256 Demo.eksblowfish
              Demo.ann Demo.world w1 token H Hsp eq_refl)
    as [u [_ [Hbefore _]]].
  split; [exact H|]. split; [exact Hsp|]. split; [discriminate|].
  apply Hbefore. reflexivity.
Defined.

(** ** C3 at work: a second registration for Ann's email *)



(** ** C5: the two failed logins of app/api/login/route.js differ *)

Lemma login_POST_distinguishes :
  let w := snd (register_POST Demo.hs256 Demo.eksblowfish Demo.ann
                  Demo.world) in
  let wrong := fst (login_POST Demo.hs256 Demo.eksblowfish
                      Demo.ann_wrong_password w) in
  let unknown := fst (login_POST Demo.hs256 Demo.eksblowfish Demo.nobody w) in
  findOne_email (users w) (Some "a@x.com") <> None
  /\ findOne_email (users w) (Some "nobody@x.com") = None
  /\ wrong = Response 401 (message "Invalid credentials")
  /\ unknown = Response 404 (message "User not found")
  /\ status wrong <> status unknown.
Proof.
  cbv zeta. split; [discriminate|]. split; [reflexivity|].
  split; [reflexivity|]. split; [reflexivity|]. discriminate.
Qed.

Lemma failed_login_responses_witness :
  let w := snd (register_POST Demo.hs256 Demo.eksblowfish Demo.ann
                  Demo.world) in
  findOne_email (users w) (Body.email Demo.nobody) = None
  /\ login_POST Demo.hs256 Demo.eksblowfish Demo.nobody w
     = (Response 404 (message "User not found"), w)
  /\ api_login_POST Demo.eksblowfish Demo.nobody w
     = (Response 401 (failure "error" "Invalid email or password"), w).
Proof.
  intros w.
  destruct (failed_login_responses Demo.hs256 Demo.eksblowfish Demo.nobody w)
    as [Hunknown [_ Hapi]].
  split; [reflexivity|]. split.
  - exact (Hunknown eq_refl).
  - exact (Hapi eq_refl eq_refl eq_refl).
Defined.

(** ** C6: the response of register/route.js has no [user] *)



(** ** C7: a server without [JWT_SECRET] starts and answers *)

Lemma missing_secret_not_fatal :
  let r := register_POST Demo.hs256 Demo.eksblowfish Demo.ann
             Demo.world_without_secret in
  let w1 := snd r in
  JWT_SECRET Demo.world_without_secret = None
  /\ fst r
     = Response 500 (message "An error occurred. Please try again later.")
  /\ map User.email (users w1) = ["a@x.com"]
  /\ login_POST Demo.hs256 Demo.eksblowfish Demo.ann w1
     = (Response 500
          (JObj [("error", JStr "secretOrPrivateKey must have a value")]),
        w1)
  /\ login_POST Demo.hs256 Demo.eksblowfish Demo.nobody w1
     = (Response 404 (message "User not found"), w1).
Proof. cbv zeta. repeat split. Qed.

Lemma missing_secret_per_request_witness :
  let w1 := snd (register_POST Demo.hs256 Demo.eksblowfish Demo.ann
                  Demo.world_without_secret) in
  JS.falsy (JWT_SECRET w1) = true
  /\ register_accepts Demo.ann Demo.world_without_secret = true
  /\ login_POST Demo.hs256 Demo.eksblowfish Demo.ann w1
     = (Response 500
          (JObj [("error", JStr "secretOrPrivateKey must have a value")]),
        w1)
  /\ status (fst (register_POST Demo.hs256 Demo.eksblowfish Demo.ann
                    Demo.world_without_secret)) = 500%Z
  /\ users w1 <> []
  /\ prop "token"
       (body (fst (login_POST Demo.hs256 Demo.eksblowfish Demo.ann w1)))
     = None.
Proof.
  intros w1.
  destruct (missing_secret_per_request Demo.hs256 Demo.eksblowfish w1
              eq_refl) as [Hlogin [_ Hnone]].
  destruct (missing_secret_per_request Demo.hs256 Demo.eksblowfish
              Demo.world_without_secret eq_refl) as [_ [Hregister _]].
  split; [reflexivity|]. split; [reflexivity|]. split; [|split; [|split]].
  - apply (Hlogin Demo.ann
             (register_user Demo.eksblowfish Demo.ann
                Demo.world_without_secret));
      reflexivity.
  - now rewrite (Hregister Demo.ann eq_refl).
  - unfold w1. rewrite (Hregister Demo.ann eq_refl). discriminate.
  - exact (proj1 (Hnone Demo.ann)).
Defined.

(** ** C8: a cart that lists a product twice passes validation *)

Lemma duplicate_line_items_stored :
  let w := snd (User_save true Demo.doubled Demo.world) in
  reachable Demo.hs256 Demo.eksblowfish w
  /\ users w = [Demo.doubled]
  /\ ~ cart_invariant w.
Proof.
  cbv zeta. split; [|split].
  - apply reach_User_save. now apply reach_empty.
  - reflexivity.
  - intros [Hu _].
    destruct (Hu Demo.doubled (or_introl eq_refl)) as [_ Hnodup].
    inversion Hnodup as [|x l Hnotin _]. apply Hnotin. now left.
Qed.

(** The standalone cart document is not even asked for a quantity of at
    least 1. *)
Lemma zero_quantity_stored :
  let w := snd (Cart_save true Demo.empty_handed Demo.world) in
  reachable Demo.hs256 Demo.eksblowfish w
  /\ carts w = [Demo.empty_handed]
  /\ ~ cart_invariant w.
Proof.
  cbv zeta. split; [|split].
  - apply reach_Cart_save. now apply reach_empty.
  - reflexivity.
  - intros [_ Hc].
    destruct (Hc Demo.empty_handed (or_introl eq_refl)) as [Hq _].
    destruct (Hq _ (or_introl eq_refl)) as [q [Eq Hpos]].
    injection Eq as <-. discriminate.
Qed.

Lemma stored_carts_validated_witness :
  let w := snd (User_save true Demo.doubled Demo.world) in
  reachable Demo.hs256 Demo.eksblowfish w /\ validated w.
Proof.
  intros w.
  assert (H : reachable Demo.hs256 Demo.eksblowfish w)
    by (apply reach_User_save; now apply reach_empty).
  split; [exact H|].
  destruct (stored_carts_validated Demo.hs256 Demo.eksblowfish)
    as [Hvalidated _].
  exact (Hvalidated w H).
Defined.

(** ** C9 at work: Alice's token under another scheme word *)


(** ** C10: a charge of 0, as a number and as a string *)

Lemma zero_amount_string_forwarded :
  prop "amount" Demo.free_charge_as_text = Some (JStr "0")
  /\ payment_POST Demo.stripe_charges_create (Ok Demo.free_charge_as_text)
     = (Response 200 (JObj [("success", JBool true); ("data", JStr "ch_1")]),
        [Charge.Make (JStr "0") "inr" (Some (JStr "tok_visa"))
           "Supermarket payment"]).
Proof. split; reflexivity. Qed.

Lemma payment_rejects_falsy_witness :
  prop "amount" Demo.free_charge = Some (JNum (Fin 0))
  /\ json_falsy (prop "token" Demo.free_charge) = false
  /\ payment_POST Demo.stripe_charges_create (Ok Demo.free_charge)
     = (Response 400 (failure "message" "Missing token or amount."), [])
  /\ snd (payment_POST Demo.stripe_charges_create
            (Ok Demo.free_charge_as_text))
     = [Charge.Make (JStr "0") "inr" (Some (JStr "tok_visa"))
          "Supermarket payment"].
Proof.
  destruct (payment_rejects_falsy Demo.stripe_charges_create
              (Ok Demo.free_charge)) as [_ [Hzero _]].
  destruct (payment_rejects_falsy Demo.stripe_charges_create
              (Ok Demo.free_charge_as_text)) as [_ [_ [_ Htext]]].
  split; [reflexivity|]. split; [reflexivity|]. split.
  - apply (Hzero Demo.free_charge 0%Q); reflexivity.
  - apply (Htext Demo.free_charge_as_text
             (JObj [("id", JStr "tok_visa")]) "0");
      reflexivity || discriminate.
Defined.

(** * The further properties at work *)

Lemma corsOptions_origin_decides_witness :
  corsOptions_origin (Some "http://localhost:8080") = CorsFalse
  /\ corsOptions_origin (Some "") = CorsTrue.
Proof.
  split.
  - destruct (corsOptions_origin_decides (Some "http://localhost:8080"))
      as [[_ Hdeny] _].
    apply Hdeny. exists "http://localhost:8080".
    repeat split; discriminate.
  - destruct (corsOptions_origin_decides (Some "")) as [_ [_ Hempty]].
    now apply Hempty.
Defined.

Lemma authMiddleware_refuses_with_401_witness :
  let token :=
    signed Demo.hs256 [("id", 1%N)] "s3cret" Jwt.one_day 1000%Z in
  JS.falsy (JWT_SECRET Demo.world_without_secret) = true
  /\ refused (authMiddleware Demo.hs256 (Some ("Bearer " ++ token))
                Demo.world_without_secret).
Proof.
  intros token. split; [reflexivity|].
  destruct (authMiddleware_refuses_with_401 Demo.hs256
              (Some ("Bearer " ++ token)) Demo.world_without_secret)
    as [_ [_ Hnone]].
  now apply Hnone.
Defined.

Lemma authMiddleware_second_piece_witness :
  let token :=
    signed Demo.hs256 [("id", 1%N)] "s3cret" Jwt.one_day 1000%Z in
  JS.mem " " "Bearer" = false /\ JS.mem " " token = false
  /\ authMiddleware Demo.hs256 (Some ("Bearer " ++ token ++ " junk"))
       Demo.shop
     = Next (Some 1%N)
  /\ authMiddleware Demo.hs256 (Some ("Bearer  " ++ token)) Demo.shop
     = no_token.
Proof.
  intros token.
  destruct (authMiddleware_second_piece Demo.hs256 Demo.shop "Bearer" token
              "junk" eq_refl eq_refl) as [Hjunk _].
  destruct (authMiddleware_second_piece Demo.hs256 Demo.shop "Bearer" token
              token eq_refl eq_refl) as [_ Hdouble].
  split; [reflexivity|]. split; [reflexivity|]. split.
  - etransitivity; [exact Hjunk | reflexivity].
  - exact Hdouble.
Defined.

Lemma cart_GET_statuses_witness :
  let token :=
    signed Demo.hs256 [("userId", 1%N)] "s3cret" Jwt.one_hour 1000%Z in
  let alice :=
    signed Demo.hs256 [("id", 1%N)] "s3cret" Jwt.one_day 1000%Z in
  let stranger :=
    signed Demo.hs256 [("id", 9%N)] "s3cret" Jwt.one_day 1000%Z in
  authMiddleware Demo.hs256 (Some ("Bearer " ++ token)) Demo.shop = Next None
  /\ fst (cart_GET Demo.hs256 (Some ("Bearer " ++ token)) Demo.shop)
     = Response 404 (message "User not found")
  /\ status (fst (cart_GET Demo.hs256 None Demo.shop)) = 401%Z
  /\ status (fst (cart_GET Demo.hs256 (Some ("Bearer " ++ alice))
                    Demo.shop)) = 200%Z
  /\ fst (cart_GET Demo.hs256 (Some ("Bearer " ++ stranger)) Demo.shop)
     = Response 404 (message "User not found").
Proof.
  intros token alice stranger.
  destruct (cart_GET_statuses Demo.hs256 (Some ("Bearer " ++ token))
              Demo.shop) as [_ [_ [Hundefined _]]].
  destruct (cart_GET_statuses Demo.hs256 None Demo.shop)
    as [_ [Hrefused _]].
  destruct (cart_GET_statuses Demo.hs256 (Some ("Bearer " ++ alice))
              Demo.shop) as [_ [_ [_ [Hfound _]]]].
  destruct (cart_GET_statuses Demo.hs256 (Some ("Bearer " ++ stranger))
              Demo.shop) as [_ [_ [_ [_ Hnone]]]].
  split; [reflexivity|]. split; [|split; [|split]].
  - now apply Hundefined.
  - apply Hrefused. now eexists.
  - apply (Hfound 1%N Demo.alice); reflexivity.
  - apply (Hnone 9%N); reflexivity.
Defined.

Lemma cart_GET_lists_items_witness :
  let authorization :=
    Some ("Bearer " ++ signed Demo.hs256 [("id", 3%N)] "s3cret" Jwt.one_day
                         1000%Z) in
  authMiddleware Demo.hs256 authorization Sample.shop = Next (Some 3%N)
  /\ findById (users Sample.shop) (Some 3%N) = Some Sample.carol
  /\ exists entries,
       fst (cart_GET Demo.hs256 authorization Sample.shop)
       = Response 200 (JArr entries)
       /\ List.length entries = 2%nat
       /\ exists entry,
            nth_error entries 1 = Some entry
            /\ prop "quantity" entry = Some (JNum (Fin 1))
            /\ prop "productId" entry = Some JNull.
Proof.
  intros authorization.
  split; [reflexivity|]. split; [reflexivity|].
  destruct (cart_GET_lists_items Demo.hs256 authorization Sample.shop
              (Some 3%N) Sample.carol eq_refl eq_refl)
    as [entries [Hr [Hlen Hitems]]].
  exists entries. split; [exact Hr|]. split; [exact Hlen|].
  destruct (Hitems 1%nat (LineItem.Make (Some 99%N) (Some (Fin 1))) eq_refl)
    as [entry [Hnth [Hq Hp]]].
  exists entry. split; [exact Hnth|]. split; [exact Hq|].
  exact (Hp 99%N eq_refl).
Defined.

Lemma api_login_POST_never_succeeds_witness :
  let w := snd (api_register_POST Demo.eksblowfish Demo.ann
                  Demo.world) in
  users w <> []
  /\ status (fst (api_login_POST Demo.eksblowfish Demo.ann w))
     <> 200%Z.
Proof.
  intros w. split; [discriminate|].
  destruct (api_login_POST_never_succeeds Demo.eksblowfish
              Demo.ann w) as [_ [Hnot _]].
  exact Hnot.
Defined.

Lemma login_POST_missing_fields_witness :
  let w := snd (register_POST Demo.hs256 Demo.eksblowfish Demo.ann
                  Demo.world) in
  findOne_email (users w) (Body.email Sample.no_password) <> None
  /\ Body.password Sample.no_password = None
  /\ status (fst (login_POST Demo.hs256 Demo.eksblowfish Sample.no_password
                    w)) = 500%Z.
Proof.
  intros w. split; [discriminate|]. split; [reflexivity|].
  destruct (login_POST_missing_fields Demo.hs256 Demo.eksblowfish
              Sample.no_password w) as [_ [_ Hnone]].
  apply (Hnone (register_user Demo.eksblowfish Demo.ann Demo.world));
    reflexivity.
Defined.

Lemma payment_POST_outcome_witness :
  snd (payment_POST Sample.stripe_down (Ok Sample.card_charge))
  = [Charge.Make (JNum (Fin 500)) "inr" (Some (JStr "tok_visa"))
       "Supermarket payment"]
  /\ fst (payment_POST Sample.stripe_down (Ok Sample.card_charge))
     = Response 500
         (failure "message"
            "An error occurred with our connection to Stripe.").
Proof.
  split; [reflexivity|].
  destruct (payment_POST_outcome Sample.stripe_down (Ok Sample.card_charge))
    as [_ [_ [_ Hthrow]]].
  apply (Hthrow (Charge.Make (JNum (Fin 500)) "inr" (Some (JStr "tok_visa"))
                   "Supermarket payment"));
    reflexivity.
Defined.

Lemma payment_POST_source_witness :
  prop "token" Sample.bare_token_charge = Some (JStr "tok_visa")
  /\ exists c,
       snd (payment_POST Demo.stripe_charges_create
              (Ok Sample.bare_token_charge)) = [c]
       /\ Charge.source c = None.
Proof.
  split; [reflexivity|].
  destruct (payment_POST_source Demo.stripe_charges_create
              Sample.bare_token_charge (JStr "tok_visa") eq_refl eq_refl
              eq_refl) as [c [Hc [_ [Hstr _]]]].
  exists c. split; [exact Hc|]. exact (Hstr "tok_visa" eq_refl).
Defined.

Lemma register_POST_outcomes_witness :
  status (fst (register_POST Demo.hs256 Demo.eksblowfish Demo.ann
                 Demo.world)) = 201%Z
  /\ register_accepts Demo.ann Demo.world = true
  /\ users (snd (register_POST Demo.hs256 Demo.eksblowfish Demo.ann
                   Demo.world))
     = [register_user Demo.eksblowfish Demo.ann Demo.world].
Proof.
  destruct (register_POST_outcomes Demo.hs256 Demo.eksblowfish Demo.ann
              Demo.world) as [_ [_ [H201 _]]].
  split; [reflexivity|]. exact (H201 eq_refl).
Defined.

Lemma register_POST_retry_witness :
  let w1 := snd (register_POST Demo.hs256 Demo.eksblowfish Demo.ann
                   Demo.world_without_secret) in
  register_accepts Demo.ann Demo.world_without_secret = true
  /\ JS.falsy (JWT_SECRET Demo.world_without_secret) = true
  /\ status (fst (register_POST Demo.hs256 Demo.eksblowfish Demo.ann
                    Demo.world_without_secret)) = 500%Z
  /\ register_POST Demo.hs256 Demo.eksblowfish Demo.ann w1
     = (Response 400 (message "User already exists"), w1).
Proof.
  intros w1.
  destruct (register_POST_retry Demo.hs256 Demo.eksblowfish Demo.ann
              Demo.world_without_secret eq_refl eq_refl)
    as [Hfirst [_ Hagain]].
  split; [reflexivity|]. split; [reflexivity|]. split.
  - now rewrite Hfirst.
  - exact Hagain.
Defined.

Lemma run_keeps_users_distinct_witness :
  let es := [Request (POST_register Demo.ann);
             Request (POST_api_register Sample.ann_shouting);
             Request (POST_register Demo.ann); Clock 5000%Z;
             Request (POST_api_register Demo.ann)] in
  distinct_users (users Demo.world)
  /\ List.length (users (run Demo.hs256 Demo.eksblowfish es Demo.world))
     = 1%nat
  /\ distinct_users (users (run Demo.hs256 Demo.eksblowfish es Demo.world)).
Proof.
  intros es.
  assert (H : distinct_users (users Demo.world))
    by (split; constructor).
  split; [exact H|]. split; [reflexivity|].
  exact (run_keeps_users_distinct Demo.hs256 Demo.eksblowfish es Demo.world
           H).
Defined.

Lemma run_keeps_passwords_hashed_witness :
  let es := [Request (POST_register Demo.ann);
             Request (POST_api_register Sample.initial_only)] in
  (forall salt s, String.length (Demo.eksblowfish salt s) = 31%nat)
  /\ forall u,
       In u (users (run Demo.hs256 Demo.eksblowfish es Demo.world)) ->
       bcrypt_shaped (User.password u).
Proof.
  intros es. split; [exact demo_digest_length|].
  apply (run_keeps_passwords_hashed Demo.hs256 Demo.eksblowfish
           demo_digest_length es Demo.world).
  intros u [].
Defined.

Lemma register_login_cart_witness :
  let w1 := snd (register_POST Demo.hs256 Demo.eksblowfish Demo.ann
                   Demo.world) in
  let token := signed Demo.hs256 [("id", 1%N)] "s3cret" Jwt.one_day 1000%Z in
  let w2 := run Demo.hs256 Demo.eksblowfish
              [Clock 80000%Z; Request (POST_register Demo.ann_wrong_password)]
              w1 in
  register_accepts Demo.ann Demo.world = true
  /\ login_POST Demo.hs256 Demo.eksblowfish Demo.ann w1
     = (Response 200 (JObj [("token", JStr token)]), w1)
  /\ cart_GET Demo.hs256 (Some ("Bearer " ++ token)) w2
     = (Response 200 (JArr []), w2).
Proof.
  intros w1 token w2.
  destruct (register_login_cart Demo.hs256 Demo.eksblowfish
              demo_digest_length Demo.ann Demo.world eq_refl eq_refl)
    as [Hlogin Hcart].
  split; [reflexivity|]. split; [exact Hlogin|].
  apply (Hcart w2 []); reflexivity.
Defined.

Lemma api_user_GET_profile_witness :
  let w := snd (api_register_POST Demo.eksblowfish Demo.ann
                  Demo.world) in
  api_register_accepts Demo.ann Demo.world = true
  /\ fst (api_user_GET " A@X.COM" w)
     = Response 200
         (JObj [("success", JBool true);
                ("data",
                 JObj [("name", JStr "Ann"); ("email", JStr "a@x.com");
                       ("city", JStr "Pune");
                       ("phoneNumber", JStr "9876543210")])])
  /\ fst (api_user_GET "b@x.com" w)
     = Response 404 (failure "error" "User not found").
Proof.
  intros w.
  destruct (api_user_GET_profile Demo.eksblowfish " A@X.COM"
              Demo.world) as [_ [_ Hfound]].
  destruct (api_user_GET_profile Demo.eksblowfish "b@x.com" w)
    as [_ [Hnone _]].
  split; [reflexivity|]. split.
  - exact (Hfound Demo.ann eq_refl eq_refl).
  - now apply Hnone.
Defined.

Lemma userSchema_validate_after_checks_witness :
  emailRegex "a@x.com" = true /\ phoneRegex "9876543210" = true
  /\ userSchema_validate (api_register_draft Sample.initial_only Demo.world)
     = false.
Proof.
  split; [reflexivity|]. split; [reflexivity|].
  rewrite (userSchema_validate_after_checks Sample.initial_only Demo.world
             eq_refl eq_refl eq_refl).
  reflexivity.
Defined.

Lemma api_register_POST_short_name_witness :
  (String.length (JS.trim "A") < 2)%nat
  /\ fst (api_register_POST Demo.eksblowfish Sample.initial_only
            Demo.world)
     = Response 500
         (failure "error" "Registration failed. Please try again later.")
  /\ users (snd (api_register_POST Demo.eksblowfish
                   Sample.initial_only Demo.world)) = [].
Proof.
  assert (H : (String.length (JS.trim "A") < 2)%nat)
    by (change (1 < 2)%nat; lia).
  split; [exact H|].
  apply (api_register_POST_short_name Demo.eksblowfish
           Sample.initial_only Demo.world);
    [reflexivity | reflexivity | reflexivity | reflexivity | reflexivity|].
  left. exact H.
Defined.

Lemma api_register_POST_outcomes_witness :
  api_register_accepts Demo.ann Demo.world = true
  /\ fst (api_register_POST Demo.eksblowfish Demo.ann Demo.world)
     = Response 500
         (failure "error" "Registration failed. Please try again later.")
  /\ users (snd (api_register_POST Demo.eksblowfish Demo.ann Demo.world))
     = [api_register_user Demo.eksblowfish Demo.ann Demo.world]
  /\ api_register_accepts Sample.initial_only Demo.world = false
  /\ users (snd (api_register_POST Demo.eksblowfish Sample.initial_only
                   Demo.world)) = [].
Proof.
  destruct (api_register_POST_outcomes Demo.eksblowfish Demo.ann
              Demo.world) as [_ [_ [_ [Hstored [Hfailed _]]]]].
  destruct (api_register_POST_outcomes Demo.eksblowfish Sample.initial_only
              Demo.world) as [_ [_ [_ [_ [_ Hkept]]]]].
  split; [reflexivity|]. split; [exact (Hfailed eq_refl)|].
  split; [exact (proj1 Hstored eq_refl)|].
  split; [reflexivity|]. exact (Hkept eq_refl).
Defined.

Lemma authMiddleware_other_secret_witness :
  let token :=
    signed Demo.hs256 [("id", 1%N)] "your-secret-key" Jwt.one_day 1000%Z in
  JS.mem " " token = false
  /\ authMiddleware Demo.hs256 (Some ("Bearer " ++ token)) Demo.shop
     = bad_token.
Proof.
  intros token. split; [reflexivity|].
  apply (authMiddleware_other_secret Demo.hs256 [("id", 1%N)]
           "your-secret-key" Jwt.one_day 1000%Z Demo.shop);
    [discriminate | reflexivity].
Defined.

Lemma api_register_POST_case_insensitive_witness :
  let w1 := snd (api_register_POST Demo.eksblowfish Demo.ann
                   Demo.world) in
  api_register_accepts Demo.ann Demo.world = true
  /\ Body.email Sample.ann_shouting = Some "A@X.COM"
  /\ status (fst (api_register_POST Demo.eksblowfish
                    Sample.ann_shouting w1)) = 400%Z
  /\ snd (api_register_POST Demo.eksblowfish Sample.ann_shouting
            w1) = w1.
Proof.
  intros w1. split; [reflexivity|]. split; [reflexivity|].
  exact (api_register_POST_case_insensitive Demo.eksblowfish
           Demo.ann Sample.ann_shouting Demo.world "A@X.COM" eq_refl eq_refl
           eq_refl).
Defined.

Lemma register_POST_case_sensitive_witness :
  let w1 := snd (register_POST Demo.hs256 Demo.eksblowfish Demo.ann
                   Demo.world) in
  register_accepts Demo.ann Demo.world = true
  /\ Body.email Sample.ann_shouting <> Body.email Demo.ann
  /\ List.length
       (users (snd (register_POST Demo.hs256 Demo.eksblowfish
                      Sample.ann_shouting w1))) = 2%nat.
Proof.
  intros w1.
  assert (Hne : Body.email Sample.ann_shouting <> Body.email Demo.ann)
    by discriminate.
  destruct (register_POST_case_sensitive Demo.hs256 Demo.eksblowfish
              Demo.ann Sample.ann_shouting Demo.world eq_refl eq_refl Hne
              eq_refl eq_refl) as [_ Husers].
  split; [reflexivity|]. split; [exact Hne|].
  unfold w1. rewrite Husers. reflexivity.
Defined.

Lemma login_token_resolves_witness :
  let w1 := snd (register_POST Demo.hs256 Demo.eksblowfish Demo.ann
                   Demo.world) in
  let token := signed Demo.hs256 [("id", 1%N)] "s3cret" Jwt.one_day 1000%Z in
  fst (login_POST Demo.hs256 Demo.eksblowfish Demo.ann w1)
  = Response 200 (JObj [("token", JStr token)])
  /\ authMiddleware Demo.hs256 (Some ("Bearer " ++ token)) w1
     = Next (Some 1%N)
  /\ authMiddleware Demo.hs256 (Some ("Bearer " ++ token))
       (set_now 87400%Z w1)
     = bad_token.
Proof.
  intros w1 token.
  assert (Hlogin : fst (login_POST Demo.hs256 Demo.eksblowfish Demo.ann w1)
                   = Response 200 (JObj [("token", JStr token)]))
    by reflexivity.
  split; [exact Hlogin|]. split.
  - exact (login_token_resolves Demo.hs256 Demo.eksblowfish Demo.ann w1 w1
             (register_user Demo.eksblowfish Demo.ann Demo.world) token
             eq_refl Hlogin eq_refl eq_refl).
  - exact (login_token_resolves Demo.hs256 Demo.eksblowfish Demo.ann w1
             (set_now 87400%Z w1)
             (register_user Demo.eksblowfish Demo.ann Demo.world) token
             eq_refl Hlogin eq_refl eq_refl).
Defined.

Lemma registered_password_verifies_witness :
  (forall salt p, String.length (Demo.eksblowfish salt p) = 31%nat)
  /\ register_accepts Demo.ann Demo.world = true
  /\ api_register_accepts Demo.ann Demo.world = true
  /\ (exists u,
        users (snd (register_POST Demo.hs256 Demo.eksblowfish Demo.ann
                      Demo.world)) = [u]
        /\ User.password u <> "secret1"
        /\ bcrypt_compare Demo.eksblowfish (Some "secret1")
             (Some (User.password u)) = Ok true)
  /\ (exists u,
        users (snd (api_register_POST Demo.eksblowfish Demo.ann Demo.world))
        = [u]
        /\ User.password u <> "secret1"
        /\ comparePassword Demo.eksblowfish (Some (User.password u))
             (Some "secret1") = Ok true).
Proof.
  destruct (registered_password_verifies Demo.hs256 Demo.eksblowfish
              demo_digest_length Demo.ann Demo.world) as [Hrouter Hserver].
  split; [exact demo_digest_length|]. split; [reflexivity|].
  split; [reflexivity|]. split.
  - destruct (Hrouter eq_refl) as [u [Hu [_ [Hne Hcmp]]]].
    exists u. split; [exact Hu|]. split; [|exact Hcmp].
    apply Hne. discriminate.
  - destruct (Hserver eq_refl) as [u [Hu [_ [Hne Hcmp]]]].
    exists u. split; [exact Hu|]. split; [|exact Hcmp].
    apply Hne. discriminate.
Defined.
